(** * Verification of [database.py]: the [DatabaseConnection] bootstrapper

    The development has three layers.

    - [Py]: the fragment of Python the script is written in: exceptions,
      a state-and-exception monad, [try]/[except]/[finally], [os.getenv],
      [int(str)] and [logging].
    - [Sqlite]: a model of the storage engine the script calls through the
      [sqlite3] module: values, column definitions, the two SQL statements
      the script issues, connections, implicit transactions, commit and
      close.
    - [DatabaseConnection]: the class itself, method by method.

    The theorems about the class come last. *)

From stdpp Require Import gmap strings list fin_maps numbers.
From Stdlib Require Import Ascii QArith Qcanon.

Local Open Scope Z_scope.
Local Open Scope string_scope.
Local Open Scope list_scope.

(* ===================================================================== *)
(** ** Exceptions and outcomes *)
(* ===================================================================== *)

(** The classes below [sqlite3.Error] in the module's exception hierarchy. *)
Inductive sqlite_class :=
| Sqlite_Error
| Sqlite_InterfaceError
| Sqlite_DatabaseError
| Sqlite_DataError
| Sqlite_OperationalError
| Sqlite_IntegrityError
| Sqlite_InternalError
| Sqlite_ProgrammingError
| Sqlite_NotSupportedError.

(** A raised exception: an instance of [sqlite3.Error] (or of one of its
    subclasses), a [ValueError], or an instance of any other class, named
    by [cls], that is not below [sqlite3.Error] ([MemoryError],
    [KeyboardInterrupt], an exception of the caller's own, ...). *)
Inductive exn :=
| Sqlite3Error (cls : sqlite_class) (msg : string)
| ValueError (msg : string)
| OtherException (cls : string) (msg : string).

(** [isinstance(e, sqlite3.Error)], the test of [except sqlite3.Error]. *)
Definition is_sqlite3_Error (e : exn) : bool :=
  match e with
  | Sqlite3Error _ _ => true
  | _ => false
  end.

(** [str(e)], what an f-string prints for [{e}]. *)
Definition str_exn (e : exn) : string :=
  match e with
  | Sqlite3Error _ msg => msg
  | ValueError msg => msg
  | OtherException _ msg => msg
  end.

(** How a call ends: with a value, or with a raised exception. *)
Inductive outcome (A : Type) :=
| Ret (a : A)
| Raise (e : exn).
Arguments Ret {A} a.
Arguments Raise {A} e.

(** The outcome is a raised instance of [sqlite3.Error]. *)
Definition raises_sqlite3_Error {A} (r : outcome A) : Prop :=
  match r with
  | Raise e => is_sqlite3_Error e = true
  | Ret _ => False
  end.

(* ===================================================================== *)
(** ** The state-and-exception monad *)
(* ===================================================================== *)

(** A computation over a state [S]: it ends with an outcome and a new
    state. The state is kept when an exception is raised, as the effects a
    Python call had before it raised are. *)
Definition ST (S A : Type) : Type := S → outcome A * S.

Definition st_ret {S A} (a : A) : ST S A := λ s, (Ret a, s).

Definition st_bind {S A B} (m : ST S A) (k : A → ST S B) : ST S B :=
  λ s, match m s with
       | (Ret a, s') => k a s'
       | (Raise e, s') => (Raise e, s')
       end.

Definition raise {S A} (e : exn) : ST S A := λ s, (Raise e, s).

Notation "'let*' x := m 'in' k" := (st_bind m (λ x, k))
  (at level 10, x name, m at level 100, k at level 200,
   format "'[v' 'let*'  x  :=  m  'in'  '/' k ']'").
Notation "m >> k" := (st_bind m (λ _, k))
  (at level 100, k at level 200, right associativity,
   format "'[v' m  >>  '/' k ']'").

(** [try: body except <handles> as e: handler e]. *)
Definition try_except {S A} (body : ST S A) (handles : exn → bool)
    (handler : exn → ST S A) : ST S A :=
  λ s, match body s with
       | (Ret a, s') => (Ret a, s')
       | (Raise e, s') => if handles e then handler e s' else (Raise e, s')
       end.

(** [try: body finally: fin]. The [finally] clause runs on every exit of
    [body]; when it ends normally the exit of [body] stands, when it raises
    its exception replaces it. *)
Definition try_finally {S A} (body : ST S A) (fin : ST S unit) : ST S A :=
  λ s, match body s with
       | (r, s') =>
           match fin s' with
           | (Ret _, s'') => (r, s'')
           | (Raise e, s'') => (Raise e, s'')
           end
       end.

(** A function's local variable of type [L], next to the global state. *)
Definition lift {L S A} (m : ST S A) : ST (L * S) A :=
  λ ls, match m ls.2 with (r, s') => (r, (ls.1, s')) end.

Definition get_local {L S} : ST (L * S) L := λ ls, (Ret ls.1, ls).

Definition set_local {L S} (l : L) : ST (L * S) unit := λ ls, (Ret tt, (l, ls.2)).

(** Runs [m] in a frame whose local variable starts as [l0]. *)
Definition with_local {L S A} (l0 : L) (m : ST (L * S) A) : ST S A :=
  λ s, match m (l0, s) with (r, ls) => (r, ls.2) end.

(* ===================================================================== *)
(** ** The storage engine: values, columns, statements *)
(* ===================================================================== *)

Module Sqlite.

(** A stored value and its storage class. Python's [None], [int], [float]
    and [str] are bound as [VNull], [VInt], [VReal] and [VText]. A REAL is
    kept as a rational in lowest terms. *)
Inductive value :=
| VNull
| VInt (z : Z)
| VReal (q : Qc)
| VText (s : string).

Inductive coltype := INTEGER | TEXT | REAL | TIMESTAMP.

(** The operands and conditions a CHECK constraint of the script is made of. *)
Inductive term :=
| TConst (v : value)
| TCol (name : string).

Inductive cond :=
| CGe (a b : term)
| CLe (a b : term)
| CAnd (p q : cond).

Inductive default_clause :=
| DefaultCurrentTimestamp
| DefaultConst (v : value).

(** A column definition of a CREATE TABLE statement. *)
Record column := Column {
  col_name : string;
  col_type : coltype;
  col_primary_key : bool;
  col_not_null : bool;
  col_unique : bool;
  col_check : option cond;
  col_default : option default_clause
}.

(** The SQL statements the script issues.
    [CreateTable ine t cols] is CREATE TABLE [IF NOT EXISTS] t (cols);
    [InsertOrReplace t cols n] is INSERT OR REPLACE INTO t (cols) VALUES
    (?, ..., ?) with [n] placeholders. *)
Inductive statement :=
| CreateTable (if_not_exists : bool) (name : string) (cols : list column)
| InsertOrReplace (table : string) (cols : list string) (placeholders : nat).

(** A table: its column definitions and its rows by rowid. A row holds one
    value per column, in the order of the definitions. *)
Record table := Table {
  tbl_columns : list column;
  tbl_rows : gmap Z (list value)
}.

(** The engine matches the names of tables and columns without regard to
    the case of the ASCII letters: [users], [Users] and [USERS] name one
    table. [fold_case] is the name with its ASCII capitals in lower case;
    every other character stays as it is. *)
Definition fold_ascii (a : ascii) : ascii :=
  let n := nat_of_ascii a in
  if (65 <=? n)%nat && (n <=? 90)%nat then ascii_of_nat (n + 32) else a.

Fixpoint fold_case (s : string) : string :=
  match s with
  | EmptyString => EmptyString
  | String a s' => String (fold_ascii a) (fold_case s')
  end.

(** The content of a database: its tables, each under its name in lower
    case, so that a name finds its table under [fold_case] of the name
    whatever the spelling the table was created with. Tables are all a
    database holds here: views, triggers and indexes other than those of
    the column constraints are not modelled. *)
Abbreviation database := (gmap string table).

#[global] Instance value_eq_dec : EqDecision value.
Proof. solve_decision. Defined.
#[global] Instance coltype_eq_dec : EqDecision coltype.
Proof. solve_decision. Defined.
#[global] Instance term_eq_dec : EqDecision term.
Proof. solve_decision. Defined.
#[global] Instance cond_eq_dec : EqDecision cond.
Proof. solve_decision. Defined.
#[global] Instance default_clause_eq_dec : EqDecision default_clause.
Proof. solve_decision. Defined.
#[global] Instance column_eq_dec : EqDecision column.
Proof. solve_decision. Defined.

(** *** Comparison of values *)

(** The number a numeric value stands for. *)
Definition numeric (v : value) : option Qc :=
  match v with
  | VInt z => Some (Q2Qc (inject_Z z))
  | VReal q => Some q
  | _ => None
  end.

(** The order of two values, [None] when one of them is NULL. Numbers are
    compared by value, texts byte by byte, and every number sorts before
    every text. *)
Definition value_compare (a b : value) : option comparison :=
  match a, b with
  | VNull, _ | _, VNull => None
  | VText s, VText t => Some (String.compare s t)
  | VText _, _ => Some Gt
  | _, VText _ => Some Lt
  | _, _ =>
      match numeric a, numeric b with
      | Some x, Some y => Some (x ?= y)%Qc
      | _, _ => None
      end
  end.

(** Two values collide under a uniqueness constraint: neither is NULL and
    they compare equal. *)
Definition value_collides (a b : value) : bool :=
  match value_compare a b with
  | Some Eq => true
  | _ => false
  end.

(** *** Building the row of an INSERT

    Values are stored in the class they are bound in: the engine's
    conversion of a value to the affinity of its column is not modelled.
    The script binds every value in the class of its column. *)

(** The column is an alias of the rowid: INTEGER PRIMARY KEY. *)
Definition is_rowid_alias (c : column) : bool :=
  col_primary_key c && bool_decide (col_type c = INTEGER).

(** The column carries a uniqueness index of its own: UNIQUE, or a PRIMARY
    KEY that is not the rowid. *)
Definition unique_indexed (c : column) : bool :=
  (col_unique c || col_primary_key c) && negb (is_rowid_alias c).

(** The value paired with [name], for names [cols] and values [vals];
    names match without regard to case. *)
Fixpoint bound_value (name : string) (cols : list string) (vals : list value)
    : option value :=
  match cols, vals with
  | c :: cols', v :: vals' =>
      if bool_decide (fold_case c = fold_case name) then Some v
      else bound_value name cols' vals'
  | _, _ => None
  end.

(** The DEFAULT of a column, at the engine's current time [now]
    (CURRENT_TIMESTAMP is the text "YYYY-MM-DD HH:MM:SS" of that time). *)
Definition default_value (now : string) (c : column) : value :=
  match col_default c with
  | Some DefaultCurrentTimestamp => VText now
  | Some (DefaultConst v) => v
  | None => VNull
  end.

(** The value an INSERT gives a column: the bound one when the statement
    names the column, the DEFAULT otherwise. *)
Definition initial_value (now : string) (cols : list string) (vals : list value)
    (c : column) : value :=
  match bound_value (col_name c) cols vals with
  | Some v => v
  | None => default_value now c
  end.

#[global] Instance outcome_mret : MRet outcome := λ A a, Ret a.
#[global] Instance outcome_mbind : MBind outcome := λ A B k r,
  match r with
  | Ret a => k a
  | Raise e => Raise e
  end.

(** NOT NULL under OR REPLACE: a NULL is replaced by the column's DEFAULT,
    and the statement fails when there is none. *)
Definition not_null_value (now tname : string) (cv : column * value)
    : outcome value :=
  if col_not_null cv.1 && bool_decide (cv.2 = VNull) then
    match default_value now cv.1 with
    | VNull => Raise (Sqlite3Error Sqlite_IntegrityError
                 ("NOT NULL constraint failed: " +:+ tname +:+ "." +:+ col_name cv.1))
    | d => Ret d
    end
  else Ret cv.2.

(** The value the row gives the rowid alias, when the table has one. *)
Fixpoint alias_value (tcols : list column) (row : list value) : option value :=
  match tcols, row with
  | c :: tcols', v :: row' =>
      if is_rowid_alias c then Some v else alias_value tcols' row'
  | _, _ => None
  end.

Definition max_rowid (rows : gmap Z (list value)) : option Z :=
  map_fold (λ k _ acc, Some (match acc with Some m => Z.max k m | None => k end))
           None rows.

Definition next_rowid (rows : gmap Z (list value)) : Z :=
  match max_rowid rows with
  | Some m => m + 1
  | None => 1
  end.

(** The rowid of a new row: the integer given for the alias column, a fresh
    one when that is NULL or the table has no alias column. *)
Definition choose_rowid (tbl : table) (row : list value) : outcome Z :=
  match alias_value (tbl_columns tbl) row with
  | Some (VInt k) => Ret k
  | Some VNull | None => Ret (next_rowid (tbl_rows tbl))
  | Some _ => Raise (Sqlite3Error Sqlite_IntegrityError "datatype mismatch")
  end.

(** The row with its alias column set to the rowid. *)
Fixpoint fill_alias (tcols : list column) (rowid : Z) (row : list value)
    : list value :=
  match tcols, row with
  | c :: tcols', v :: row' =>
      (if is_rowid_alias c then VInt rowid else v) :: fill_alias tcols' rowid row'
  | _, _ => row
  end.

(** *** CHECK constraints *)

Definition eval_term (tcols : list column) (row : list value) (t : term) : value :=
  match t with
  | TConst v => v
  | TCol name => default VNull (bound_value name (col_name <$> tcols) row)
  end.

(** The truth value of a condition, [None] when it is NULL. *)
Fixpoint eval_cond (tcols : list column) (row : list value) (c : cond)
    : option bool :=
  match c with
  | CGe a b =>
      (λ o, bool_decide (o ≠ Lt)) <$>
        value_compare (eval_term tcols row a) (eval_term tcols row b)
  | CLe a b =>
      (λ o, bool_decide (o ≠ Gt)) <$>
        value_compare (eval_term tcols row a) (eval_term tcols row b)
  | CAnd p q =>
      match eval_cond tcols row p, eval_cond tcols row q with
      | Some false, _ | _, Some false => Some false
      | Some true, Some true => Some true
      | _, _ => None
      end
  end.

(** A CHECK constraint fails only when its condition is false: a NULL
    condition passes. *)
Definition check_passes (tcols : list column) (row : list value) (c : column)
    : bool :=
  match col_check c with
  | Some p => bool_decide (eval_cond tcols row p ≠ Some false)
  | None => true
  end.

(** *** Uniqueness and OR REPLACE *)

(** The new row and a stored row collide on a uniqueness index. *)
Definition collides_on (tcols : list column) (new old : list value) : bool :=
  existsb (λ cab, unique_indexed cab.1 && value_collides cab.2.1 cab.2.2)
          (zip tcols (zip new old)).

(** The stored row [old] at rowid [k] stands in the way of the new row at
    [rowid]: it has the same rowid, or collides on a uniqueness index. *)
Definition conflicts (tcols : list column) (rowid : Z) (new : list value)
    (k : Z) (old : list value) : bool :=
  bool_decide (k = rowid) || collides_on tcols new old.

(** The rows after the new row has replaced every stored row that stood in
    its way. *)
Definition replace_into (tcols : list column) (rowid : Z) (row : list value)
    (rows : gmap Z (list value)) : gmap Z (list value) :=
  <[rowid := row]>
    (filter (λ kr, conflicts tcols rowid row kr.1 kr.2 = false) rows).

(** INSERT OR REPLACE of one row of bound values into [tbl]. NOT NULL and
    CHECK violations fail the statement and leave the table as it was; on a
    PRIMARY KEY or UNIQUE violation the engine deletes every stored row that
    stands in the way, then inserts the new row. *)
Definition insert_or_replace (now tname : string) (tbl : table)
    (cols : list string) (vals : list value) : outcome table :=
  let tcols := tbl_columns tbl in
  row1 ← mapM (not_null_value now tname)
              (zip tcols (initial_value now cols vals <$> tcols));
  rowid ← choose_rowid tbl row1;
  let row := fill_alias tcols rowid row1 in
  if forallb (check_passes tcols row) tcols then
    Ret (Table tcols (replace_into tcols rowid row (tbl_rows tbl)))
  else
    Raise (Sqlite3Error Sqlite_IntegrityError
             ("CHECK constraint failed: " +:+ tname)).

(** *** Statements against a database *)

(** Preparing the statement against [db] and taking [vals] as its
    bindings: the error the module raises before the statement runs,
    when there is one. *)
Definition prepare (stmt : statement) (vals : list value) (db : database)
    : outcome unit :=
  match stmt with
  | CreateTable if_not_exists tname _ =>
      match db !! fold_case tname with
      | Some _ =>
          if if_not_exists then Ret tt
          else Raise (Sqlite3Error Sqlite_OperationalError
                        ("table " +:+ tname +:+ " already exists"))
      | None => Ret tt
      end
  | InsertOrReplace tname cols placeholders =>
      match db !! fold_case tname with
      | None =>
          Raise (Sqlite3Error Sqlite_OperationalError ("no such table: " +:+ tname))
      | Some tbl =>
          match list_find (λ c, fold_case c ∉
                                  (fold_case ∘ col_name) <$> tbl_columns tbl) cols with
          | Some (_, c) =>
              Raise (Sqlite3Error Sqlite_OperationalError
                       ("table " +:+ tname +:+ " has no column named " +:+ c))
          | None =>
              if negb (bool_decide (length cols = placeholders)) then
                Raise (Sqlite3Error Sqlite_OperationalError
                         "number of values does not match number of columns")
              else if negb (bool_decide (length vals = placeholders)) then
                Raise (Sqlite3Error Sqlite_ProgrammingError
                         "Incorrect number of bindings supplied.")
              else Ret tt
          end
      end
  end.

(** The database after the prepared statement has run with bindings
    [vals] at time [now]. CREATE TABLE IF NOT EXISTS leaves a database that
    has a table of that name, in whatever spelling, as it is. *)
Definition step (now : string) (stmt : statement) (vals : list value)
    (db : database) : outcome database :=
  match stmt with
  | CreateTable _ tname cols =>
      match db !! fold_case tname with
      | Some _ => Ret db
      | None => Ret (<[fold_case tname := Table cols ∅]> db)
      end
  | InsertOrReplace tname cols _ =>
      match db !! fold_case tname with
      | None =>
          Raise (Sqlite3Error Sqlite_OperationalError ("no such table: " +:+ tname))
      | Some tbl =>
          tbl' ← insert_or_replace now tname tbl cols vals;
          Ret (<[fold_case tname := tbl']> db)
      end
  end.

(** The statement writes to the database when it runs on [db]. *)
Definition writes (stmt : statement) (db : database) : bool :=
  match stmt with
  | CreateTable _ tname _ => bool_decide (db !! fold_case tname = None)
  | InsertOrReplace _ _ _ => true
  end.

(** The statement is data manipulation, before which the module opens a
    transaction implicitly. *)
Definition is_dml (stmt : statement) : bool :=
  match stmt with
  | CreateTable _ _ _ => false
  | InsertOrReplace _ _ _ => true
  end.

End Sqlite.

(* ===================================================================== *)
(** ** The world the script runs in *)
(* ===================================================================== *)

(** [connection.row_factory]: the default (rows as tuples) or [sqlite3.Row]
    (rows whose fields are read by column name). *)
Inductive row_factory := TupleRows | Sqlite3_Row.

(** An open connection: the arguments it was opened with, its row factory,
    and, while it has written in a transaction that is still open, its
    working copy of the database. A connection with a working copy holds
    the write lock of its file. A connection to a private database (see
    [is_private]) keeps the whole database as its working copy, from its
    first write until it closes. *)
Record conn_state := ConnState {
  c_path : string;
  c_timeout : Z;
  c_row_factory : row_factory;
  c_txn : option Sqlite.database
}.

(** A connection object is known by its handle, a cursor by the connection
    it was made from. *)
Abbreviation Connection := nat.

Record Cursor := { cur_connection : Connection }.

(** The levels of [logging] the script meets: it logs at INFO and at ERROR,
    and a root logger that nobody configured is at WARNING. As the level
    of the root logger, INFO stands for every level at which an INFO record
    is written; levels above ERROR are left out. *)
Inductive log_level := INFO | WARNING | ERROR.

(** The process and its surroundings.
    - [w_environ]: [os.environ].
    - [w_files]: the committed content of the database files, by path as
      given to [connect]; a path without a file reads as an empty database.
      Two spellings of one file (a relative and an absolute path, a link)
      are not told apart from two files.
    - [w_conns]: the open connections, by handle; handles are never reused.
    - [w_now]: the engine's clock, as CURRENT_TIMESTAMP renders it.
    - [w_log]: the records written through [logging], oldest first.
    - [w_log_level]: the level of the root logger; a record below it is
      dropped. The module never configures logging, so the level is what
      the importing program left: WARNING unless it set another.
    - [w_faults]: what the surroundings do to the next calls into the
      engine that touch the file (open, statement, commit): [Some e] makes
      the call raise [e] (file cannot be opened, disk full, lock timeout,
      interrupt, ...), [None] lets it proceed; an exhausted list lets every
      call proceed. *)
Record World := {
  w_environ : gmap string string;
  w_files : gmap string Sqlite.database;
  w_conns : gmap nat conn_state;
  w_next_handle : nat;
  w_now : string;
  w_log : list (log_level * string);
  w_log_level : log_level;
  w_faults : list (option exn)
}.

Definition set_files (f : gmap string Sqlite.database) (w : World) : World :=
  {| w_environ := w_environ w; w_files := f; w_conns := w_conns w;
     w_next_handle := w_next_handle w; w_now := w_now w; w_log := w_log w;
     w_log_level := w_log_level w; w_faults := w_faults w |}.

Definition set_conns (c : gmap nat conn_state) (w : World) : World :=
  {| w_environ := w_environ w; w_files := w_files w; w_conns := c;
     w_next_handle := w_next_handle w; w_now := w_now w; w_log := w_log w;
     w_log_level := w_log_level w; w_faults := w_faults w |}.

Definition set_next_handle (n : nat) (w : World) : World :=
  {| w_environ := w_environ w; w_files := w_files w; w_conns := w_conns w;
     w_next_handle := n; w_now := w_now w; w_log := w_log w;
     w_log_level := w_log_level w; w_faults := w_faults w |}.

Definition set_log (l : list (log_level * string)) (w : World) : World :=
  {| w_environ := w_environ w; w_files := w_files w; w_conns := w_conns w;
     w_next_handle := w_next_handle w; w_now := w_now w; w_log := l;
     w_log_level := w_log_level w; w_faults := w_faults w |}.

Definition set_faults (f : list (option exn)) (w : World) : World :=
  {| w_environ := w_environ w; w_files := w_files w; w_conns := w_conns w;
     w_next_handle := w_next_handle w; w_now := w_now w; w_log := w_log w;
     w_log_level := w_log_level w; w_faults := f |}.

Definition set_now (t : string) (w : World) : World :=
  {| w_environ := w_environ w; w_files := w_files w; w_conns := w_conns w;
     w_next_handle := w_next_handle w; w_now := t; w_log := w_log w;
     w_log_level := w_log_level w; w_faults := w_faults w |}.

(** A computation of the script. *)
Abbreviation M := (ST World).

(* ===================================================================== *)
(** ** Python library calls *)
(* ===================================================================== *)

(** [os.getenv(key, default)]. *)
Definition os_getenv (key dflt : string) : M string :=
  λ w, (Ret (default dflt (w_environ w !! key)), w).

(** [logging.error(msg)]: ERROR is the highest of the levels the root
    logger can be at here, so the record is always written. *)
Definition logging_error (msg : string) : M unit :=
  λ w, (Ret tt, set_log (w_log w ++ [(ERROR, msg)]) w).

(** The world after [logging.info(msg)]: the record is written when the
    root logger is at INFO, and dropped when it is at a higher level. *)
Definition info_logged (msg : string) (w : World) : World :=
  match w_log_level w with
  | INFO => set_log (w_log w ++ [(INFO, msg)]) w
  | WARNING | ERROR => w
  end.

Arguments info_logged : simpl never.

(** [logging.info(msg)]. *)
Definition logging_info (msg : string) : M unit :=
  λ w, (Ret tt, info_logged msg w).

(** *** [int(s)] for a string of ASCII characters

    The built-in strips white space (tab, line feed, vertical tab, form
    feed, carriage return, space) at both ends, takes one optional sign,
    then decimal digits with single underscores allowed between digits,
    and refuses a literal of more than 4300 digits (the interpreter's
    default limit since 3.11; sign, underscores and white space do not
    count). Every failure is a [ValueError]; of its message only the fixed
    part is kept. On a string with a character outside ASCII the built-in
    goes by the Unicode tables of digits and spaces, which are not
    modelled: [int_ascii] describes [int] on ASCII strings only, and
    [__init__] below is stated for the built-in as a parameter. *)

Definition is_space (a : ascii) : bool :=
  let n := nat_of_ascii a in
  ((9 <=? n) && (n <=? 13) || (n =? 32))%nat.

Definition is_digit (a : ascii) : bool :=
  let n := nat_of_ascii a in ((48 <=? n) && (n <=? 57))%nat.

Definition digit_value (a : ascii) : Z := Z.of_nat (nat_of_ascii a) - 48.

Fixpoint lstrip (l : list ascii) : list ascii :=
  match l with
  | a :: l' => if is_space a then lstrip l' else l
  | [] => []
  end.

Definition strip (l : list ascii) : list ascii :=
  reverse (lstrip (reverse (lstrip l))).

(** Decimal digits, with single underscores allowed between digits.
    [after_digit] tells whether the character before was a digit. *)
Fixpoint digits_value (acc : Z) (after_digit : bool) (l : list ascii)
    : option Z :=
  match l with
  | [] => if after_digit then Some acc else None
  | a :: l' =>
      if is_digit a then digits_value (10 * acc + digit_value a) true l'
      else if bool_decide (a = "_"%char) then
        if after_digit then digits_value acc false l' else None
      else None
  end.

(** The digits and underscores the literal starts with, and the number of
    digits among them. *)
Fixpoint digit_run (l : list ascii) : list ascii :=
  match l with
  | a :: l' =>
      if is_digit a || bool_decide (a = "_"%char) then a :: digit_run l' else []
  | [] => []
  end.

Definition count_digits (l : list ascii) : nat :=
  length (List.filter is_digit l).

Definition max_str_digits : nat := 4300.

Definition invalid_literal : exn :=
  ValueError "invalid literal for int() with base 10".

Definition exceeds_limit : exn :=
  ValueError "Exceeds the limit (4300 digits) for integer string conversion".

Definition int_ascii (s : string) : outcome Z :=
  let l := strip (String.list_ascii_of_string s) in
  let negative := match l with "-"%char :: _ => true | _ => false end in
  let literal := match l with
                 | "-"%char :: l' | "+"%char :: l' => l'
                 | _ => l
                 end in
  let run := digit_run literal in
  if bool_decide (is_Some (digits_value 0 false run))
     && (max_str_digits <? count_digits run)%nat
  then Raise exceeds_limit
  else match digits_value 0 false literal with
       | Some z => Ret (if negative then - z else z)
       | None => Raise invalid_literal
       end.

(* ===================================================================== *)
(** ** The [sqlite3] module *)
(* ===================================================================== *)

(** One call into the engine that touches the file: the surroundings let
    it proceed or make it raise. *)
Definition engine_call : M unit :=
  λ w, match w_faults w with
       | [] => (Ret tt, w)
       | None :: fs => (Ret tt, set_faults fs w)
       | Some e :: fs => (Raise e, set_faults fs w)
       end.

Definition closed_database : exn :=
  Sqlite3Error Sqlite_ProgrammingError "Cannot operate on a closed database.".

Definition database_is_locked : exn :=
  Sqlite3Error Sqlite_OperationalError "database is locked".

(** The timeout is converted to a C double before the engine is called:
    an integer that rounds beyond the largest double does not fit, and the
    conversion raises [OverflowError]. *)
Definition timeout_fits (timeout : Z) : bool :=
  (Z.abs timeout <? 2 ^ 1024 - 2 ^ 970)%Z.

Arguments timeout_fits : simpl never.

Definition overflow_error : exn :=
  OtherException "OverflowError" "int too large to convert to float".

(** The paths at which the engine opens no file: ":memory:" is a database
    in memory, the empty path a temporary one. Such a database is private
    to the connection that opened it and is gone when that closes. *)
Definition is_private (path : string) : bool :=
  bool_decide (path = ":memory:") || bool_decide (path = "").

Arguments is_private : simpl never.

(** [sqlite3.connect(path, timeout=timeout)]: a new open connection, with
    no transaction and the default row factory. *)
Definition sqlite3_connect (path : string) (timeout : Z) : M Connection :=
  if timeout_fits timeout then
    engine_call >>
    (λ w, let h := w_next_handle w in
          (Ret h,
           set_next_handle (S h)
             (set_conns (<[h := ConnState path timeout TupleRows None]> (w_conns w)) w)))
  else raise overflow_error.

(** [connection.row_factory = f]. *)
Definition set_row_factory (c : Connection) (f : row_factory) : M unit :=
  λ w, (Ret tt,
        set_conns (alter (λ cs, ConnState (c_path cs) (c_timeout cs) f (c_txn cs))
                         c (w_conns w)) w).

(** The state of [c], which must be open. *)
Definition connection_state (c : Connection) : M conn_state :=
  λ w, match w_conns w !! c with
       | Some cs => (Ret cs, w)
       | None => (Raise closed_database, w)
       end.

(** [connection.cursor()]. *)
Definition connection_cursor (c : Connection) : M Cursor :=
  connection_state c >> st_ret {| cur_connection := c |}.

(** Another open connection has written to the file at [path] in a
    transaction that is still open, and so holds the write lock of the
    file. A private database has no other connection. *)
Definition write_locked_by_other (path : string) (c : Connection)
    (conns : gmap nat conn_state) : bool :=
  negb (is_private path)
  && bool_decide (map_Exists (λ c' cs, c' ≠ c ∧ c_path cs = path ∧ is_Some (c_txn cs))
                             conns).

(** The committed content of the database at [path]: the content of the
    file, empty when there is no file; empty at a private path, where
    every connection starts from a database of its own. *)
Definition committed (path : string) (w : World) : Sqlite.database :=
  if is_private path then ∅ else default ∅ (w_files w !! path).

(** What a connection sees: its working copy when it has one, the
    committed content of its path otherwise. *)
Definition view (cs : conn_state) (w : World) : Sqlite.database :=
  default (committed (c_path cs) w) (c_txn cs).

Definition set_txn (txn : option Sqlite.database) (cs : conn_state) : conn_state :=
  ConnState (c_path cs) (c_timeout cs) (c_row_factory cs) txn.

(** [cursor.execute(stmt, vals)].
    The statement is prepared against what the connection sees: its
    working copy inside a transaction, the committed file otherwise. A
    statement that writes runs
    - inside the open transaction, on the working copy;
    - else, when it is data manipulation, in a transaction the module
      opens implicitly: the write lock is taken, and the transaction stays
      open whether the statement succeeds or fails;
    - else (CREATE TABLE outside a transaction) in autocommit mode,
      straight on the file; on a private database, which has no file, on
      the working copy. *)
Definition cursor_execute (cur : Cursor) (stmt : Sqlite.statement)
    (vals : list Sqlite.value) : M unit :=
  let c := cur_connection cur in
  let* cs := connection_state c in
  engine_call >>
  (λ w,
    let db := view cs w in
    match Sqlite.prepare stmt vals db with
    | Raise e => (Raise e, w)
    | Ret _ =>
        if negb (Sqlite.writes stmt db) then (Ret tt, w)
        else if bool_decide (c_txn cs = None)
                && write_locked_by_other (c_path cs) c (w_conns w)
        then (Raise database_is_locked, w)
        else if bool_decide (is_Some (c_txn cs)) || Sqlite.is_dml stmt
                || is_private (c_path cs) then
          match Sqlite.step (w_now w) stmt vals db with
          | Ret db' =>
              (Ret tt, set_conns (<[c := set_txn (Some db') cs]> (w_conns w)) w)
          | Raise e =>
              (Raise e, set_conns (<[c := set_txn (Some db) cs]> (w_conns w)) w)
          end
        else
          match Sqlite.step (w_now w) stmt vals db with
          | Ret db' => (Ret tt, set_files (<[c_path cs := db']> (w_files w)) w)
          | Raise e => (Raise e, w)
          end
    end).

(** [cursor.executemany(stmt, rows)]: the statement run once for each
    element of [rows], in order, stopping at the first error. *)
Fixpoint execute_each (cur : Cursor) (stmt : Sqlite.statement)
    (rows : list (list Sqlite.value)) : M unit :=
  match rows with
  | [] => st_ret tt
  | vals :: rows' => cursor_execute cur stmt vals >> execute_each cur stmt rows'
  end.

Definition cursor_executemany (cur : Cursor) (stmt : Sqlite.statement)
    (rows : list (list Sqlite.value)) : M unit :=
  connection_state (cur_connection cur) >>
  if Sqlite.is_dml stmt then execute_each cur stmt rows
  else raise (Sqlite3Error Sqlite_ProgrammingError
                "executemany() can only execute DML statements.").

(** [connection.commit()]: the working copy of the open transaction becomes
    the content of the file; nothing to do outside a transaction. A
    private database has no file: its content stays with the connection. *)
Definition connection_commit (c : Connection) : M unit :=
  let* cs := connection_state c in
  match c_txn cs with
  | None => st_ret tt
  | Some db =>
      engine_call >>
      (λ w, if is_private (c_path cs) then (Ret tt, w)
            else (Ret tt,
                  set_files (<[c_path cs := db]> (w_files w))
                    (set_conns (<[c := set_txn None cs]> (w_conns w)) w)))
  end.

(** [connection.close()]: the handle is released; a transaction that is
    still open is lost. Closing a closed connection does nothing. *)
Definition connection_close (c : Connection) : M unit :=
  λ w, (Ret tt, set_conns (delete c (w_conns w)) w).

(* ===================================================================== *)
(** ** The class [DatabaseConnection] *)
(* ===================================================================== *)

Record DatabaseConnection := {
  dbPath : string;
  connectionTimeout : Z
}.

Section construction.

(** The built-in [int] on strings: the integer it returns or the exception
    it raises. *)
Variable int : string → outcome Z.

(** The call [int(s)]: it touches nothing. *)
Definition python_int (s : string) : M Z := λ w, (int s, w).

(** [__init__]. *)
Definition __init__ : M DatabaseConnection :=
  let* path := os_getenv "DATABASE_PATH" "users.db" in
  let* text := os_getenv "DB_TIMEOUT" "30" in
  let* timeout := python_int text in
  st_ret {| dbPath := path; connectionTimeout := timeout |}.

End construction.

(** [getConnection], a generator under [@contextmanager], together with the
    [with] statement that drives it: [body] is the block of the [with]
    statement, given the yielded connection. The block's exit reaches the
    generator at its [yield]: a normal exit (falling off the end, [return],
    [break]) resumes it there, an exception is thrown in there, inside the
    [try]. The local variable is [connection]. *)
Definition getConnection {A} (self : DatabaseConnection)
    (body : Connection → M A) : M A :=
  with_local (None : option Connection)
    (try_finally
       (try_except
          (let* c := lift (sqlite3_connect (dbPath self) (connectionTimeout self)) in
           set_local (Some c) >>
           lift (set_row_factory c Sqlite3_Row) >>
           lift (body c))
          is_sqlite3_Error
          (λ e, lift (logging_error ("Database connection error: " +:+ str_exn e)) >>
                raise e))
       (let* connection := get_local in
        match connection with
        | Some c => lift (connection_close c)
        | None => st_ret tt
        end)).

(** The column definitions of the CREATE TABLE statement. *)
Definition users_columns : list Sqlite.column :=
  [ Sqlite.Column "id" Sqlite.INTEGER true false false None None;
    Sqlite.Column "name" Sqlite.TEXT false true false None None;
    Sqlite.Column "email" Sqlite.TEXT false true true None None;
    Sqlite.Column "age" Sqlite.INTEGER false false false
      (Some (Sqlite.CAnd
               (Sqlite.CGe (Sqlite.TCol "age") (Sqlite.TConst (Sqlite.VInt 0)))
               (Sqlite.CLe (Sqlite.TCol "age") (Sqlite.TConst (Sqlite.VInt 150)))))
      None;
    Sqlite.Column "department" Sqlite.TEXT false true false None None;
    Sqlite.Column "salary" Sqlite.REAL false false false
      (Some (Sqlite.CGe (Sqlite.TCol "salary") (Sqlite.TConst (Sqlite.VInt 0))))
      None;
    Sqlite.Column "created_at" Sqlite.TIMESTAMP false false false None
      (Some Sqlite.DefaultCurrentTimestamp) ].

(** The statement of [_createUserTable]. *)
Definition create_users : Sqlite.statement :=
  Sqlite.CreateTable true "users" users_columns.

(** [_createUserTable]. *)
Definition _createUserTable (cursor : Cursor) : M unit :=
  cursor_execute cursor create_users [].

(** A Python float with an integral value, as bound. *)
Definition real (z : Z) : Sqlite.value := Sqlite.VReal (Q2Qc (inject_Z z)).

Definition sampleUsers : list (list Sqlite.value) :=
  [ [Sqlite.VInt 1; Sqlite.VText "John Doe"; Sqlite.VText "john@example.com";
     Sqlite.VInt 30; Sqlite.VText "IT"; real 75000];
    [Sqlite.VInt 2; Sqlite.VText "Jane Smith"; Sqlite.VText "jane@example.com";
     Sqlite.VInt 28; Sqlite.VText "HR"; real 65000];
    [Sqlite.VInt 3; Sqlite.VText "Bob Johnson"; Sqlite.VText "bob@example.com";
     Sqlite.VInt 35; Sqlite.VText "Finance"; real 80000];
    [Sqlite.VInt 4; Sqlite.VText "Alice Brown"; Sqlite.VText "alice@example.com";
     Sqlite.VInt 32; Sqlite.VText "IT"; real 78000];
    [Sqlite.VInt 5; Sqlite.VText "Charlie Davis"; Sqlite.VText "charlie@example.com";
     Sqlite.VInt 29; Sqlite.VText "Marketing"; real 70000] ].

(** The statement of [_insertSampleData]. *)
Definition insert_user : Sqlite.statement :=
  Sqlite.InsertOrReplace "users"
    ["id"; "name"; "email"; "age"; "department"; "salary"] 6.

(** [_insertSampleData]. *)
Definition _insertSampleData (cursor : Cursor) : M unit :=
  cursor_executemany cursor insert_user sampleUsers.

(** [initializeDatabase]. *)
Definition initializeDatabase (self : DatabaseConnection) : M bool :=
  try_except
    (getConnection self (λ connection,
       let* cursor := connection_cursor connection in
       _createUserTable cursor >>
       _insertSampleData cursor >>
       connection_commit connection >>
       logging_info "Database initialized successfully" >>
       st_ret true))
    is_sqlite3_Error
    (λ e, logging_error ("Database initialization failed: " +:+ str_exn e) >>
          st_ret false).

(* ===================================================================== *)
(** ** Notions the theorems are stated with *)
(* ===================================================================== *)

(** The world after [connection.close()] and after [logging.error(msg)]. *)
Definition closed (c : Connection) (w : World) : World :=
  set_conns (delete c (w_conns w)) w.

Definition error_logged (msg : string) (w : World) : World :=
  set_log (w_log w ++ [(ERROR, msg)]) w.

(** What the [except sqlite3.Error] clause of [getConnection] does to the
    world when [e] passes through it. *)
Definition connection_error_logged (e : exn) (w : World) : World :=
  if is_sqlite3_Error e
  then error_logged ("Database connection error: " +:+ str_exn e) w
  else w.

(** The steps of the bootstrap in a row, with no handler around them and no
    release after them: open, row factory, cursor, schema, seed rows,
    commit. *)
Definition bootstrap_sequence (self : DatabaseConnection) : M unit :=
  let* connection := sqlite3_connect (dbPath self) (connectionTimeout self) in
  set_row_factory connection Sqlite3_Row >>
  let* cursor := connection_cursor connection in
  _createUserTable cursor >>
  _insertSampleData cursor >>
  connection_commit connection.

(** A process at its start: the given environment, clock and faults to
    come, no database file, no connection, an empty log. *)
Definition start_world (environ : gmap string string) (now : string)
    (faults : list (option exn)) : World :=
  {| w_environ := environ; w_files := ∅; w_conns := ∅; w_next_handle := 0;
     w_now := now; w_log := []; w_log_level := WARNING; w_faults := faults |}.

(** The object [__init__] builds in an empty environment. *)
Definition default_self : DatabaseConnection :=
  {| dbPath := "users.db"; connectionTimeout := 30 |}.

Definition unable_to_open : exn :=
  Sqlite3Error Sqlite_OperationalError "unable to open database file".

Definition disk_full : exn :=
  Sqlite3Error Sqlite_OperationalError "database or disk is full".

(** The surroundings let the next call into the engine proceed. *)
Definition proceeds (faults : list (option exn)) : Prop :=
  ∀ e, head faults ≠ Some (Some e).

(** A block that fails with an error of the caller's own. *)
Definition failing_block : Connection → M bool :=
  λ _, raise (OtherException "RuntimeError" "caller's error").

(** The world once the pending fault, if any, has let the call proceed. *)
Definition proceeded (w : World) : World := set_faults (tail (w_faults w)) w.

(** *** The users table *)

(** The rows of the users table, none when the table is absent. *)
Definition users_rows (db : Sqlite.database) : gmap Z (list Sqlite.value) :=
  from_option Sqlite.tbl_rows ∅ (db !! "users").

(** The users table, when the database has one, has the columns that
    [_createUserTable] declares. *)
Definition users_declared (db : Sqlite.database) : Prop :=
  ∀ t, db !! "users" = Some t → Sqlite.tbl_columns t = users_columns.

(** The row stored for the bound values [vals] at time [now]: the six
    values, then the default of [created_at]. *)
Definition stored (now : string) (vals : list Sqlite.value) : list Sqlite.value :=
  vals ++ [Sqlite.VText now].

(** The rows after the upsert of one seed row, and after the upsert of all
    of them in order. *)
Definition upsert_seed (now : string) (rows : gmap Z (list Sqlite.value))
    (vals : list Sqlite.value) : gmap Z (list Sqlite.value) :=
  match vals with
  | Sqlite.VInt k :: _ => Sqlite.replace_into users_columns k (stored now vals) rows
  | _ => rows
  end.

Definition seeded (now : string) (rows : gmap Z (list Sqlite.value))
    : gmap Z (list Sqlite.value) :=
  foldl (upsert_seed now) rows sampleUsers.

(** The seed row with id [k]. *)
Definition seed_with_id (k : Z) : option (list Sqlite.value) :=
  snd <$> list_find (λ vals, vals !! 0%nat = Some (Sqlite.VInt k)) sampleUsers.

(** The emails of the seed rows. *)
Definition seed_emails : list Sqlite.value :=
  omap (λ vals, vals !! 2%nat) sampleUsers.

(** The stored row has the email of a seed row. *)
Definition has_seed_email (row : list Sqlite.value) : Prop :=
  ∃ v, row !! 2%nat = Some v ∧ v ∈ seed_emails.

#[global] Instance has_seed_email_dec row : Decision (has_seed_email row).
Proof.
  unfold has_seed_email. destruct (row !! 2%nat) as [v|].
  - destruct (decide (v ∈ seed_emails)) as [Hin|Hout].
    + left. exists v. by split.
    + right. intros (v' & Hv & Hin). injection Hv as <-. by apply Hout.
  - right. intros (v' & Hv & _). discriminate.
Defined.

(** No fault is pending: every call into the engine proceeds. *)
Definition quiet (w : World) : Prop := Forall (λ f, f = None) (w_faults w).

(** *** Successive calls *)

(** The surroundings of one call: what the clock reads when it is made,
    and the faults that await it. *)
Definition at_surroundings (s : string * list (option exn)) (w : World) : World :=
  set_now s.1 (set_faults s.2 w).

(** [initializeDatabase] called once for each element of [calls], in order,
    each time in the surroundings the element gives: the results, oldest
    first, and the world after the last call. Nothing else touches the
    files between the calls. *)
Fixpoint initialize_times (self : DatabaseConnection)
    (calls : list (string * list (option exn))) (w : World)
    : list (outcome bool) * World :=
  match calls with
  | [] => ([], w)
  | s :: calls' =>
      match initializeDatabase self (at_surroundings s w) with
      | (r, w1) =>
          match initialize_times self calls' w1 with
          | (rs, w2) => (r :: rs, w2)
          end
      end
  end.


(** *** A table with a row of somebody else's *)

(** A row with id 6 that carries the email of the first seed row. *)
Definition eve_row : list Sqlite.value :=
  [Sqlite.VInt 6; Sqlite.VText "Eve Adams"; Sqlite.VText "john@example.com";
   Sqlite.VInt 41; Sqlite.VText "Sales"; real 50000;
   Sqlite.VText "2025-12-31 23:59:59"].

(** A world whose file "users.db" holds the users table, as declared, with
    that one row. *)
Definition eve_world : World :=
  {| w_environ := ∅;
     w_files := {[ "users.db" :=
                   ({[ "users" := Sqlite.Table users_columns {[ 6 := eve_row ]} ]}
                    : gmap string Sqlite.table) ]};
     w_conns := ∅; w_next_handle := 0; w_now := "2026-01-01 00:00:00";
     w_log := []; w_log_level := WARNING; w_faults := [] |}.

(** That world with a connection open on the file (handle 0), and a cursor
    of that connection. *)
Definition eve_connected : World := (sqlite3_connect "users.db" 30 eve_world).2.

Definition eve_cursor : Cursor := {| cur_connection := 0 |}.

(** *** The declared schema *)






(** *** What the steps leave alone *)

(** The table a statement is about. *)
Definition stmt_table (stmt : Sqlite.statement) : string :=
  match stmt with
  | Sqlite.CreateTable _ tname _ => tname
  | Sqlite.InsertOrReplace tname _ _ => tname
  end.

(** Two databases hold the same tables, table [t] apart. *)
Definition agree_off (t : string) (d1 d2 : Sqlite.database) : Prop :=
  ∀ t', t' ≠ t → d1 !! t' = d2 !! t'.

(** From [w] to [w'] nothing has changed but connection [c], the file at
    [path] and the pending faults: the environment, the log, the clock, the
    handle counter, the other connections and the other files are the
    same. *)
Definition same_outside (c : Connection) (path : string) (w w' : World) : Prop :=
  w_environ w' = w_environ w
  ∧ w_log w' = w_log w
  ∧ w_log_level w' = w_log_level w
  ∧ w_now w' = w_now w
  ∧ w_next_handle w' = w_next_handle w
  ∧ (∀ c', c' ≠ c → w_conns w' !! c' = w_conns w !! c')
  ∧ (∀ q, q ≠ path → w_files w' !! q = w_files w !! q)
  ∧ (is_private path = true → w_files w' = w_files w).

(** Connection [c] is open on [path], and both the committed content of
    the file and what the connection sees hold the tables of [base], table
    [t] apart. *)
Definition tracks (c : Connection) (path t : string) (base : Sqlite.database)
    (w : World) : Prop :=
  agree_off t (committed path w) base
  ∧ ∃ cs, w_conns w !! c = Some cs ∧ c_path cs = path
          ∧ agree_off t (view cs w) base.

(** *** A file with a table of somebody else's *)

Definition orders_table : Sqlite.table :=
  Sqlite.Table
    [ Sqlite.Column "id" Sqlite.INTEGER true false false None None;
      Sqlite.Column "item" Sqlite.TEXT false true false None None ]
    {[ 1 := [Sqlite.VInt 1; Sqlite.VText "lamp"] ]}.

(** A world whose file "users.db" holds a table orders and no table users,
    next to a second database file. *)
Definition shop_world : World :=
  {| w_environ := {[ "HOME" := "/root" ]};
     w_files := {[ "users.db" := ({[ "orders" := orders_table ]} : gmap string Sqlite.table);
                   "audit.db" := ({[ "orders" := orders_table ]} : gmap string Sqlite.table) ]};
     w_conns := ∅; w_next_handle := 0; w_now := "2026-01-01 00:00:00";
     w_log := [(INFO, "started")]; w_log_level := INFO;
     w_faults := [] |}.

Definition keyboard_interrupt : exn := OtherException "KeyboardInterrupt" "".

(** A block whose query fails in the engine. *)
Definition bad_query_block : Connection → M bool :=
  λ _, raise (Sqlite3Error Sqlite_OperationalError "no such table: orders").

(** A world in which a second connection (handle 7) has written to
    "users.db" in a transaction that is still open. *)
Definition busy_world : World :=
  {| w_environ := ∅;
     w_files := {[ "users.db" := (∅ : gmap string Sqlite.table) ]};
     w_conns := {[ 7%nat := ConnState "users.db" 5 TupleRows
                              (Some ({[ "orders" := orders_table ]}
                                     : gmap string Sqlite.table)) ]};
     w_next_handle := 8; w_now := "2026-01-01 00:00:00";
     w_log := []; w_log_level := WARNING; w_faults := [] |}.

(** The block of the [with] statement of [initializeDatabase], by name. *)
Definition initialize_block (connection : Connection) : M bool :=
  let* cursor := connection_cursor connection in
  _createUserTable cursor >>
  _insertSampleData cursor >>
  connection_commit connection >>
  logging_info "Database initialized successfully" >>
  st_ret true.

(** The world in which the block starts, when the open call has
    proceeded. *)
Definition block_start (self : DatabaseConnection) (w : World) : World :=
  (set_row_factory (w_next_handle w) Sqlite3_Row
     (sqlite3_connect (dbPath self) (connectionTimeout self) w).2).2.


(** *** Invariants of the rows *)

(** No two rows carry the same email (NULL apart, which never collides). *)
Definition emails_unique (rows : gmap Z (list Sqlite.value)) : Prop :=
  ∀ k1 k2 r1 r2 v,
    rows !! k1 = Some r1 → rows !! k2 = Some r2 →
    r1 !! 2%nat = Some v → r2 !! 2%nat = Some v → v ≠ Sqlite.VNull →
    k1 = k2.

(** No row with an id outside 1 to 5 carries the email of a seed row. *)
Definition seed_emails_free (rows : gmap Z (list Sqlite.value)) : Prop :=
  ∀ k row, rows !! k = Some row → ¬ (1 ≤ k ≤ 5)%Z → ¬ has_seed_email row.

(** A row with id 9 and an email of its own, and a world whose users table
    holds it next to the row with id 6. *)
Definition guest_row : list Sqlite.value :=
  [Sqlite.VInt 9; Sqlite.VText "Guest User"; Sqlite.VText "guest@example.com";
   Sqlite.VInt 25; Sqlite.VText "Ops"; real 100;
   Sqlite.VText "2025-06-30 12:00:00"].

Definition guest_world : World :=
  {| w_environ := ∅;
     w_files := {[ "users.db" :=
                   ({[ "users" := Sqlite.Table users_columns
                                    {[ 6 := eve_row; 9 := guest_row ]} ]}
                    : gmap string Sqlite.table) ]};
     w_conns := ∅; w_next_handle := 0; w_now := "2026-01-01 00:00:00";
     w_log := []; w_log_level := WARNING; w_faults := [] |}.

(* ===================================================================== *)
(** ** [int(s)] on ASCII examples *)
(* ===================================================================== *)

Example int_ascii_30 : int_ascii "30" = Ret 30.
Proof. reflexivity. Qed.
Example int_ascii_spaces : int_ascii "  -1_000 " = Ret (-1000).
Proof. reflexivity. Qed.
Example int_ascii_bad :
  int_ascii "3.5" = Raise invalid_literal ∧ int_ascii "" = Raise invalid_literal ∧
  int_ascii "1__0" = Raise invalid_literal ∧ int_ascii "thirty" = Raise invalid_literal ∧
  int_ascii "- 1" = Raise invalid_literal.
Proof. repeat split; reflexivity. Qed.
(** The unit separator (code 31) is no white space to [int]; the form feed
    (code 12) is. *)
Example int_ascii_control :
  int_ascii (String (ascii_of_nat 31) "30") = Raise invalid_literal
  ∧ int_ascii (String (ascii_of_nat 12) "30") = Ret 30.
Proof. split; reflexivity. Qed.
(** A literal of 4301 digits is refused. *)
Example int_ascii_limit :
  int_ascii (String.string_of_list_ascii (replicate 4301 "1"%char))
  = Raise exceeds_limit.
Proof. vm_compute; reflexivity. Qed.

(* ===================================================================== *)
(** ** Control flow of [getConnection] and [initializeDatabase] *)
(* ===================================================================== *)

(** [getConnection] by cases on the open call and on the exit of the block. *)
Lemma getConnection_unfold {A} self (body : Connection → M A) w :
  getConnection self body w =
  match sqlite3_connect (dbPath self) (connectionTimeout self) w with
  | (Raise e, w1) => (Raise e, connection_error_logged e w1)
  | (Ret c, w1) =>
      match body c (set_row_factory c Sqlite3_Row w1).2 with
      | (Ret a, w3) => (Ret a, closed c w3)
      | (Raise e, w3) => (Raise e, closed c (connection_error_logged e w3))
      end
  end.
Proof.
  unfold getConnection, with_local, try_finally, try_except, st_bind, lift,
    get_local, set_local, raise, connection_error_logged; simpl.
  destruct (sqlite3_connect _ _ w) as [[c|e] w1]; simpl.
  - destruct (body c _) as [[a|e] w3]; simpl; [done|].
    destruct (is_sqlite3_Error e); simpl; done.
  - destruct (is_sqlite3_Error e); simpl; done.
Qed.

(** With a timeout that fits a double, the open call either raises the
    pending fault or returns the next handle, open, with the arguments it
    was given. *)
Lemma sqlite3_connect_unfold path timeout w :
  timeout_fits timeout = true →
  sqlite3_connect path timeout w =
  match w_faults w with
  | Some e :: fs => (Raise e, set_faults fs w)
  | fs =>
      let h := w_next_handle w in
      (Ret h,
       set_next_handle (S h)
         (set_conns (<[h := ConnState path timeout TupleRows None]> (w_conns w))
            (set_faults (tail fs) w)))
  end.
Proof.
  intros Hfit. unfold sqlite3_connect, st_bind, engine_call. rewrite Hfit.
  destruct (w_faults w) as [|[e|] fs] eqn:Hf; simpl; try done.
  destruct w; simpl in *; by subst.
Qed.

(** With one that does not, it raises [OverflowError] before the engine is
    reached. *)
Lemma sqlite3_connect_overflow path timeout w :
  timeout_fits timeout = false →
  sqlite3_connect path timeout w = (Raise overflow_error, w).
Proof. intros Hfit. unfold sqlite3_connect, raise. by rewrite Hfit. Qed.

Lemma sqlite3_connect_fits path timeout w c w1 :
  sqlite3_connect path timeout w = (Ret c, w1) → timeout_fits timeout = true.
Proof.
  destruct (timeout_fits timeout) eqn:Hfit; [done|].
  by rewrite sqlite3_connect_overflow.
Qed.

(** An error of the engine at the open call is the pending fault. *)
Lemma sqlite3_connect_fault path timeout w e w1 :
  sqlite3_connect path timeout w = (Raise e, w1) →
  (timeout_fits timeout = false ∧ e = overflow_error ∧ w1 = w)
  ∨ (timeout_fits timeout = true
     ∧ ∃ fs, w_faults w = Some e :: fs ∧ w1 = set_faults fs w).
Proof.
  destruct (timeout_fits timeout) eqn:Hfit.
  - rewrite sqlite3_connect_unfold by done.
    destruct (w_faults w) as [|[e'|] fs]; intros [= <- <-]; right; eauto.
  - rewrite sqlite3_connect_overflow by done. intros [= <- <-]. by left.
Qed.

Lemma sqlite3_connect_opens path timeout w c w1 :
  sqlite3_connect path timeout w = (Ret c, w1) →
  w_conns w1 !! c = Some (ConnState path timeout TupleRows None).
Proof.
  intros Hopen. pose proof (sqlite3_connect_fits _ _ _ _ _ Hopen) as Hfit.
  revert Hopen. rewrite sqlite3_connect_unfold by done.
  destruct (w_faults w) as [|[e|] fs]; intros [= <- <-]; simpl;
    by rewrite lookup_insert_eq.
Qed.

(** C5. When the open call of [getConnection] raises a storage-engine
    error, [getConnection] logs it at level ERROR and raises that same
    error to its caller, whatever the block of the [with] statement is: the
    failure is never turned into a normal return or a default value. *)
Theorem getConnection_reraises_open_error {A} self (body : Connection → M A)
    w e w1 :
  sqlite3_connect (dbPath self) (connectionTimeout self) w = (Raise e, w1) →
  is_sqlite3_Error e = true →
  getConnection self body w
  = (Raise e, error_logged ("Database connection error: " +:+ str_exn e) w1).
Proof.
  intros Hopen He. rewrite getConnection_unfold, Hopen.
  unfold connection_error_logged. by rewrite He.
Qed.

Lemma getConnection_reraises_open_error_witness :
  getConnection default_self (λ _, st_ret true)
    (start_world ∅ "2026-01-01 00:00:00" [Some unable_to_open])
  = (Raise unable_to_open,
     error_logged "Database connection error: unable to open database file"
       (start_world ∅ "2026-01-01 00:00:00" [])).
Proof.
  apply (getConnection_reraises_open_error default_self (λ _, st_ret true)
           (start_world ∅ "2026-01-01 00:00:00" [Some unable_to_open])
           unable_to_open (start_world ∅ "2026-01-01 00:00:00" []));
    reflexivity.
Defined.

(** C4. Whenever [getConnection] has opened a connection, the scope is left
    the way its block is left (same value, or same exception, be it a
    storage-engine error or not; a normal value stands for falling off the
    end of the block as well as for an early [return]), and the connection
    is closed by then: its handle is no longer among the open connections.
    The next open call, when the surroundings let it proceed, returns an
    open connection. *)
Theorem getConnection_closes_on_every_exit {A} self (body : Connection → M A)
    w c w1 r w' :
  sqlite3_connect (dbPath self) (connectionTimeout self) w = (Ret c, w1) →
  getConnection self body w = (r, w') →
  (∃ wb, body c (set_row_factory c Sqlite3_Row w1).2 = (r, wb)
         ∧ w_conns w' = delete c (w_conns wb))
  ∧ w_conns w' !! c = None
  ∧ (∀ fs, proceeds fs →
       ∃ c2 w2, sqlite3_connect (dbPath self) (connectionTimeout self)
                  (set_faults fs w') = (Ret c2, w2)
                ∧ is_Some (w_conns w2 !! c2)).
Proof.
  intros Hopen Hrun. rewrite getConnection_unfold, Hopen in Hrun.
  destruct (body c _) as [[a|e] wb] eqn:Hbody.
  - injection Hrun as <- <-. split; [|split].
    + exists wb. by split.
    + simpl. apply lookup_delete_eq.
    + intros fs Hfs.
      rewrite sqlite3_connect_unfold by (by eapply sqlite3_connect_fits). simpl.
      destruct fs as [|[e|] fs]; [| by destruct (Hfs e) |];
        eexists _, _; (split; [reflexivity|]); simpl;
        rewrite lookup_insert_eq; eauto.
  - injection Hrun as <- <-. split; [|split].
    + exists wb. split; [done|].
      unfold connection_error_logged. by destruct (is_sqlite3_Error e).
    + simpl. apply lookup_delete_eq.
    + intros fs Hfs.
      rewrite sqlite3_connect_unfold by (by eapply sqlite3_connect_fits). simpl.
      destruct fs as [|[e'|] fs]; [| by destruct (Hfs e') |];
        eexists _, _; (split; [reflexivity|]); simpl;
        rewrite lookup_insert_eq; eauto.
Qed.

Lemma getConnection_closes_on_every_exit_witness :
  getConnection default_self failing_block (start_world ∅ "2026-01-01 00:00:00" [])
    = (Raise (OtherException "RuntimeError" "caller's error"),
       set_next_handle 1 (start_world ∅ "2026-01-01 00:00:00" []))
  ∧ w_conns (getConnection default_self failing_block
               (start_world ∅ "2026-01-01 00:00:00" [])).2 !! 0%nat = None.
Proof.
  split; [reflexivity|].
  eapply (getConnection_closes_on_every_exit default_self failing_block
            (start_world ∅ "2026-01-01 00:00:00" []) 0%nat);
    reflexivity.
Defined.

(** The outcome of [initializeDatabase], by cases on the outcome of the
    plain sequence of its steps. *)
Lemma initializeDatabase_by_sequence self w :
  match bootstrap_sequence self w with
  | (Ret _, _) => ∃ w', initializeDatabase self w = (Ret true, w')
  | (Raise e, _) =>
      if is_sqlite3_Error e then
        ∃ w1, initializeDatabase self w
              = (Ret false,
                 error_logged ("Database initialization failed: " +:+ str_exn e) w1)
      else ∃ w', initializeDatabase self w = (Raise e, w')
  end.
Proof.
  unfold initializeDatabase, bootstrap_sequence, try_except.
  rewrite getConnection_unfold. unfold st_bind at 1.
  destruct (sqlite3_connect _ _ w) as [[c|e] w1].
  - unfold st_bind. destruct (set_row_factory c Sqlite3_Row w1) as [[[]|e] w2] eqn:Hrf.
    2: { unfold set_row_factory in Hrf. discriminate. }
    simpl. destruct (connection_cursor c w2) as [[cur|e] w3].
    2: { destruct (is_sqlite3_Error e) eqn:He; rewrite ?He; eauto. }
    destruct (_createUserTable cur w3) as [[[]|e] w4].
    2: { destruct (is_sqlite3_Error e) eqn:He; rewrite ?He; eauto. }
    destruct (_insertSampleData cur w4) as [[[]|e] w5].
    2: { destruct (is_sqlite3_Error e) eqn:He; rewrite ?He; eauto. }
    destruct (connection_commit c w5) as [[[]|e] w6].
    2: { destruct (is_sqlite3_Error e) eqn:He; rewrite ?He; eauto. }
    simpl. eauto.
  - destruct (is_sqlite3_Error e) eqn:He; rewrite ?He; eauto.
Qed.

(** C1. [initializeDatabase] returns [True] exactly when the whole sequence
    (open, schema creation, upsert of the seed rows, commit) ran to its end
    without an error. When a step of the sequence raises a storage-engine
    error, [initializeDatabase] returns [False] and the last log record is
    the failure, at level ERROR, with the error's text. In no case does a
    storage-engine error leave [initializeDatabase] as an exception. *)
Theorem initializeDatabase_reports_by_flag self w r w' :
  initializeDatabase self w = (r, w') →
  (r = Ret true ↔ ∃ ws, bootstrap_sequence self w = (Ret tt, ws))
  ∧ (∀ e ws, bootstrap_sequence self w = (Raise e, ws) →
       is_sqlite3_Error e = true →
       r = Ret false
       ∧ ∃ l, w_log w'
              = l ++ [(ERROR, "Database initialization failed: " +:+ str_exn e)])
  ∧ ¬ raises_sqlite3_Error r.
Proof.
  intros Hrun. pose proof (initializeDatabase_by_sequence self w) as Hseq.
  destruct (bootstrap_sequence self w) as [[[]|e] ws].
  - destruct Hseq as [w2 Hseq]. rewrite Hseq in Hrun. injection Hrun as <- <-.
    split; [|split].
    + split; eauto.
    + intros e ws' [=].
    + simpl. tauto.
  - destruct (is_sqlite3_Error e) eqn:He.
    + destruct Hseq as [w2 Hseq]. rewrite Hseq in Hrun. injection Hrun as <- <-.
      split; [|split].
      * split; [intros [=] | intros [ws' [=]]].
      * intros e' ws' [= <- <-] _. split; [done|].
        simpl. eauto.
      * simpl. tauto.
    + destruct Hseq as [w2 Hseq]. rewrite Hseq in Hrun. injection Hrun as <- <-.
      split; [|split].
      * split; [intros [=] | intros [ws' [=]]].
      * intros e' ws' [= <- <-] He'. congruence.
      * simpl. congruence.
Qed.

Lemma initializeDatabase_reports_by_flag_witness :
  let w := start_world ∅ "2026-01-01 00:00:00" [None; None; Some disk_full] in
  (initializeDatabase default_self w).1 = Ret false
  ∧ (∀ e ws, bootstrap_sequence default_self w = (Raise e, ws) →
       is_sqlite3_Error e = true →
       (initializeDatabase default_self w).1 = Ret false
       ∧ ∃ l, w_log (initializeDatabase default_self w).2
              = l ++ [(ERROR, "Database initialization failed: " +:+ str_exn e)]).
Proof.
  intros w. split; [vm_compute; reflexivity|].
  apply (initializeDatabase_reports_by_flag default_self w
           (initializeDatabase default_self w).1
           (initializeDatabase default_self w).2).
  vm_compute; reflexivity.
Defined.

(** C8. Construction reads the process environment and does nothing else:
    the world is left as it was (no file, connection or log record is
    touched). [dbPath] is DATABASE_PATH, "users.db" when that is unset;
    [connectionTimeout] is the integer that the built-in [int] returns for
    DB_TIMEOUT, and for the text "30" when that is unset, which is 30. A
    connection that [getConnection] opens later has been opened with these
    two values. The built-in is a parameter: the statement holds whatever
    strings it accepts. *)
Theorem init_reads_environment (int : string → outcome Z) w timeout :
  int (default "30" (w_environ w !! "DB_TIMEOUT")) = Ret timeout →
  let self := {| dbPath := default "users.db" (w_environ w !! "DATABASE_PATH");
                 connectionTimeout := timeout |} in
  __init__ int w = (Ret self, w)
  ∧ (w_environ w !! "DATABASE_PATH" = None → dbPath self = "users.db")
  ∧ (w_environ w !! "DB_TIMEOUT" = None → int "30" = Ret 30 →
       connectionTimeout self = 30)
  ∧ (∀ w2 cs w3, getConnection self connection_state w2 = (Ret cs, w3) →
       c_path cs = default "users.db" (w_environ w !! "DATABASE_PATH")
       ∧ c_timeout cs = timeout).
Proof.
  intros Hparse self. split; [|split; [|split]].
  - unfold __init__, st_bind, os_getenv, python_int. by rewrite Hparse.
  - intros Hnone. simpl. by rewrite Hnone.
  - intros Hnone H30. rewrite Hnone in Hparse. simpl in *. congruence.
  - intros w2 cs w3. rewrite getConnection_unfold.
    destruct (sqlite3_connect _ _ w2) as [[c|e] w1] eqn:Hopen; [|by intros [=]].
    apply sqlite3_connect_opens in Hopen.
    unfold set_row_factory, connection_state. simpl.
    rewrite lookup_alter_eq, Hopen. simpl. by intros [= <- _].
Qed.

Lemma init_reads_environment_witness :
  __init__ int_ascii
    (start_world {[ "DATABASE_PATH" := "/var/lib/app/people.db";
                    "DB_TIMEOUT" := "45" ]} "2026-01-01 00:00:00" [])
  = (Ret {| dbPath := "/var/lib/app/people.db"; connectionTimeout := 45 |},
     start_world {[ "DATABASE_PATH" := "/var/lib/app/people.db";
                    "DB_TIMEOUT" := "45" ]} "2026-01-01 00:00:00" [])
  ∧ __init__ int_ascii (start_world ∅ "2026-01-01 00:00:00" [])
    = (Ret default_self, start_world ∅ "2026-01-01 00:00:00" []).
Proof.
  split.
  - refine (proj1 (init_reads_environment int_ascii
                      (start_world {[ "DATABASE_PATH" := "/var/lib/app/people.db";
                                      "DB_TIMEOUT" := "45" ]}
                                   "2026-01-01 00:00:00" []) 45 _)).
    reflexivity.
  - refine (proj1 (init_reads_environment int_ascii
                      (start_world ∅ "2026-01-01 00:00:00" []) 30 _)).
    reflexivity.
Defined.

(** C9. When DB_TIMEOUT is set to a string on which the built-in [int]
    raises [ValueError], as it does on every string that is no integer
    literal, construction raises that [ValueError] at once: no object is
    built on which an operation could be called, no default is put in its
    place, and the world is left as it was. *)
Theorem init_raises_on_bad_timeout (int : string → outcome Z) w text msg :
  w_environ w !! "DB_TIMEOUT" = Some text →
  int text = Raise (ValueError msg) →
  __init__ int w = (Raise (ValueError msg), w).
Proof.
  intros Henv Hparse.
  unfold __init__, st_bind, os_getenv, python_int.
  rewrite Henv. simpl. by rewrite Hparse.
Qed.

Lemma init_raises_on_bad_timeout_witness :
  __init__ int_ascii
    (start_world {[ "DB_TIMEOUT" := "thirty" ]} "2026-01-01 00:00:00" [])
  = (Raise invalid_literal,
     start_world {[ "DB_TIMEOUT" := "thirty" ]} "2026-01-01 00:00:00" []).
Proof.
  apply (init_raises_on_bad_timeout int_ascii
           (start_world {[ "DB_TIMEOUT" := "thirty" ]} "2026-01-01 00:00:00" [])
           "thirty");
    reflexivity.
Defined.

(* ===================================================================== *)
(** ** The upsert of the seed rows on the users table *)
(* ===================================================================== *)

Section seed_rows.
Import Sqlite.

Lemma string_compare_refl s : String.compare s s = Eq.
Proof.
  pose proof (String.compare_antisym s s) as Ha.
  destruct (String.compare s s); simpl in Ha; congruence.
Qed.

(** A text collides with that same text and with nothing else. *)
Lemma value_collides_text e v :
  value_collides (VText e) v = bool_decide (v = VText e).
Proof.
  unfold value_collides. destruct v as [|z|q|s]; simpl; try reflexivity.
  destruct (String.compare e s) eqn:Hcmp.
  - apply String.compare_eq_iff in Hcmp as ->. by rewrite bool_decide_eq_true_2.
  - rewrite bool_decide_eq_false_2; [done|]. intros [= ->].
    rewrite string_compare_refl in Hcmp. congruence.
  - rewrite bool_decide_eq_false_2; [done|]. intros [= ->].
    rewrite string_compare_refl in Hcmp. congruence.
Qed.

(** On the users table the only uniqueness index is the one on [email]. *)
Lemma collides_on_users a0 a1 e a3 a4 a5 a6 old :
  collides_on users_columns [a0; a1; VText e; a3; a4; a5; a6] old
  = bool_decide (old !! 2%nat = Some (VText e)).
Proof.
  unfold collides_on.
  destruct old as [|o0 [|o1 [|o2 old]]]; try reflexivity.
  change (bool_decide ((o0 :: o1 :: o2 :: old) !! 2%nat = Some (VText e)))
    with (bool_decide (Some o2 = Some (VText e))).
  transitivity (value_collides (VText e) o2).
  - destruct old as [|o3 [|o4 [|o5 [|o6 old]]]]; cbn;
      destruct (value_collides (VText e) o2); reflexivity.
  - rewrite value_collides_text. apply bool_decide_ext. naive_solver.
Qed.

Lemma replace_into_users_lookup k a0 a1 e a3 a4 a5 a6 rows j :
  replace_into users_columns k [a0; a1; VText e; a3; a4; a5; a6] rows !! j
  = if decide (j = k) then Some [a0; a1; VText e; a3; a4; a5; a6]
    else rows !! j ≫= λ r,
           if decide (r !! 2%nat = Some (VText e)) then None else Some r.
Proof.
  unfold replace_into. destruct (decide (j = k)) as [->|Hj].
  - by rewrite lookup_insert_eq.
  - rewrite lookup_insert_ne by done. rewrite map_lookup_filter.
    destruct (rows !! j) as [r|]; simpl; [|done].
    unfold conflicts. rewrite collides_on_users. simpl.
    rewrite (bool_decide_eq_false_2 (j = k)) by done. simpl.
    destruct (decide (r !! 2%nat = Some (VText e))) as [He|He].
    + rewrite (bool_decide_eq_true_2 _ He). by rewrite option_guard_False.
    + rewrite (bool_decide_eq_false_2 _ He). by rewrite option_guard_True.
Qed.

(** The rows after the seed step, row by row: the seed row, stored at the
    time of the step, at each seed id; at any other rowid what was there
    before, unless it had the email of a seed row, in which case nothing. *)
Lemma seeded_lookup now rows j :
  seeded now rows !! j =
  match seed_with_id j with
  | Some vals => Some (stored now vals)
  | None => rows !! j ≫= λ r, if decide (has_seed_email r) then None else Some r
  end.
Proof.
  unfold seeded, sampleUsers, upsert_seed, stored; simpl foldl.
  rewrite !replace_into_users_lookup.
  unfold seed_with_id.
  destruct (decide (j = 5)) as [->|?]; [reflexivity|].
  destruct (decide (j = 4)) as [->|?]; [reflexivity|].
  destruct (decide (j = 3)) as [->|?]; [reflexivity|].
  destruct (decide (j = 2)) as [->|?]; [reflexivity|].
  destruct (decide (j = 1)) as [->|?]; [reflexivity|].
  assert (list_find (λ vals : list value, vals !! 0%nat = Some (VInt j)) sampleUsers
          = None) as ->.
  { apply list_find_None. unfold sampleUsers.
    repeat (constructor; [intros [= <-]; done|]). constructor. }
  simpl. destruct (rows !! j) as [r|]; simpl; [|done].
  destruct (decide (has_seed_email r)) as [(v & Hv & Hin)|Hs].
  - unfold seed_emails in Hin; simpl in Hin.
    repeat (apply elem_of_cons in Hin as [-> | Hin]);
      [..| by apply elem_of_nil in Hin];
      repeat (destruct (decide (r !! 2%nat = _)) as [?|?]; simpl; try congruence).
  - repeat (destruct (decide (r !! 2%nat = _)) as [?|?];
            [exfalso; apply Hs; eexists; split; [eassumption|];
             unfold seed_emails; simpl; set_solver
            | simpl]).
    reflexivity.
Qed.

(** One seed row on the users table: no constraint fails, and the table
    after the statement is the upsert of the row. *)
Lemma insert_seed_row now rows vals :
  vals ∈ sampleUsers →
  insert_or_replace now "users" (Table users_columns rows)
    ["id"; "name"; "email"; "age"; "department"; "salary"] vals
  = Ret (Table users_columns (upsert_seed now rows vals)).
Proof.
  intros Hin. unfold sampleUsers in Hin.
  repeat (apply elem_of_cons in Hin as [-> | Hin]);
    [..| by apply elem_of_nil in Hin]; reflexivity.
Qed.

Lemma prepare_seed db rows vals :
  db !! "users" = Some (Table users_columns rows) →
  vals ∈ sampleUsers →
  prepare insert_user vals db = Ret tt.
Proof.
  intros Hdb Hin. unfold prepare, insert_user.
  change (fold_case "users") with "users". rewrite Hdb.
  unfold sampleUsers in Hin.
  repeat (apply elem_of_cons in Hin as [-> | Hin]);
    [..| by apply elem_of_nil in Hin]; reflexivity.
Qed.

Lemma step_seed now db rows vals :
  db !! "users" = Some (Table users_columns rows) →
  vals ∈ sampleUsers →
  step now insert_user vals db
  = Ret (<["users" := Table users_columns (upsert_seed now rows vals)]> db).
Proof.
  intros Hdb Hin. unfold step, insert_user.
  change (fold_case "users") with "users". rewrite Hdb.
  by rewrite insert_seed_row.
Qed.

End seed_rows.

(* ===================================================================== *)
(** ** The engine calls of the bootstrap, step by step *)
(* ===================================================================== *)

Section steps.
Import Sqlite.

(** [logging.info] touches nothing but the log. *)
Lemma info_logged_frame msg w :
  w_environ (info_logged msg w) = w_environ w
  ∧ w_files (info_logged msg w) = w_files w
  ∧ w_conns (info_logged msg w) = w_conns w
  ∧ w_next_handle (info_logged msg w) = w_next_handle w
  ∧ w_now (info_logged msg w) = w_now w
  ∧ w_log_level (info_logged msg w) = w_log_level w
  ∧ w_faults (info_logged msg w) = w_faults w.
Proof.
  unfold info_logged. destruct (w_log_level w) eqn:Hl; repeat split; simpl; done.
Qed.

Lemma info_logged_files msg w : w_files (info_logged msg w) = w_files w.
Proof. apply info_logged_frame. Qed.
Lemma info_logged_conns msg w : w_conns (info_logged msg w) = w_conns w.
Proof. apply info_logged_frame. Qed.
Lemma info_logged_now msg w : w_now (info_logged msg w) = w_now w.
Proof. apply info_logged_frame. Qed.
Lemma info_logged_faults msg w : w_faults (info_logged msg w) = w_faults w.
Proof. apply info_logged_frame. Qed.

Lemma engine_call_unfold w :
  engine_call w =
  match w_faults w with
  | Some e :: fs => (Raise e, set_faults fs w)
  | _ => (Ret tt, proceeded w)
  end.
Proof.
  unfold engine_call, proceeded.
  destruct w as [env files conns next now log level [|[e|] fs]]; reflexivity.
Qed.

Lemma createUserTable_unfold cur cs w :
  w_conns w !! cur_connection cur = Some cs →
  c_txn cs = None →
  is_private (c_path cs) = false →
  _createUserTable cur w =
  match w_faults w with
  | Some e :: fs => (Raise e, set_faults fs w)
  | _ =>
      match committed (c_path cs) w !! "users" with
      | Some _ => (Ret tt, proceeded w)
      | None =>
          if write_locked_by_other (c_path cs) (cur_connection cur) (w_conns w)
          then (Raise database_is_locked, proceeded w)
          else (Ret tt,
                set_files (<[c_path cs := <["users" := Table users_columns ∅]>
                                            (committed (c_path cs) w)]> (w_files w))
                  (proceeded w))
      end
  end.
Proof.
  intros Hc Htxn Hpriv.
  unfold _createUserTable, cursor_execute, st_bind, connection_state.
  rewrite Hc, engine_call_unfold.
  destruct (w_faults w) as [|[e|] fs] eqn:Hf; try done.
  all: cbv beta iota; unfold view; rewrite Htxn, Hpriv;
    change (committed (c_path cs) (proceeded w)) with (committed (c_path cs) w);
    cbn [default create_users prepare writes step is_dml];
    change (fold_case "users") with "users";
    destruct (committed (c_path cs) w !! "users") as [t|] eqn:Ht;
    simpl; [done|];
    destruct (write_locked_by_other _ _ _); simpl; done.
Qed.

Lemma cursor_execute_seed cur cs w rows vals :
  w_conns w !! cur_connection cur = Some cs →
  view cs w !! "users" = Some (Table users_columns rows) →
  vals ∈ sampleUsers →
  cursor_execute cur insert_user vals w =
  match w_faults w with
  | Some e :: fs => (Raise e, set_faults fs w)
  | _ =>
      if bool_decide (c_txn cs = None)
         && write_locked_by_other (c_path cs) (cur_connection cur) (w_conns w)
      then (Raise database_is_locked, proceeded w)
      else (Ret tt,
            set_conns
              (<[cur_connection cur :=
                   set_txn (Some (<["users" := Table users_columns
                                                 (upsert_seed (w_now w) rows vals)]>
                                    (view cs w))) cs]> (w_conns w))
              (proceeded w))
  end.
Proof.
  intros Hc Hview Hin.
  unfold cursor_execute, st_bind, connection_state.
  rewrite Hc, engine_call_unfold.
  destruct (w_faults w) as [|[e|] fs] eqn:Hf; try done.
  all: cbv beta iota; unfold proceeded;
    cbn [w_files w_conns w_now set_faults];
    fold (committed (c_path cs) w); fold (view cs w);
    rewrite (prepare_seed _ rows) by done;
    change (writes insert_user (view cs w)) with true;
    change (is_dml insert_user) with true;
    rewrite orb_true_r, (step_seed _ _ rows) by done;
    cbn [negb];
    destruct (bool_decide (c_txn cs = None) && write_locked_by_other _ _ _);
    done.
Qed.

Lemma quiet_proceeded w : quiet w → quiet (proceeded w).
Proof.
  unfold quiet, proceeded. simpl. destruct (w_faults w); simpl; [done|].
  by inversion 1.
Qed.

Lemma quiet_proceeds w e fs : quiet w → w_faults w ≠ Some e :: fs.
Proof. unfold quiet. intros Hq Hf. rewrite Hf in Hq. by inversion Hq. Qed.

(** The seed rows [l] executed one after the other on a connection that
    sees the users table. Files and clock are untouched, as are the other
    connections; when all of them succeed the connection is in a
    transaction whose working copy holds the upserts; and they all succeed
    when no fault is pending and no other connection holds the write
    lock. *)
Lemma execute_each_seeds cur l :
  (∀ v, v ∈ l → v ∈ sampleUsers) →
  ∀ w cs rows r w',
    w_conns w !! cur_connection cur = Some cs →
    view cs w !! "users" = Some (Table users_columns rows) →
    execute_each cur insert_user l w = (r, w') →
    w_files w' = w_files w
    ∧ w_now w' = w_now w
    ∧ (∀ c', c' ≠ cur_connection cur → w_conns w' !! c' = w_conns w !! c')
    ∧ (r = Ret tt → l ≠ [] →
         w_conns w' !! cur_connection cur
         = Some (set_txn
                   (Some (<["users" := Table users_columns
                                         (foldl (upsert_seed (w_now w)) rows l)]>
                            (view cs w))) cs))
    ∧ (quiet w →
       (c_txn cs = None →
        write_locked_by_other (c_path cs) (cur_connection cur) (w_conns w) = false) →
       r = Ret tt ∧ quiet w').
Proof.
  induction l as [|v l IH]; intros Hl w cs rows r w' Hc Hview Hrun.
  { injection Hrun as <- <-. refine (conj _ (conj _ (conj _ (conj _ _)))); done. }
  simpl in Hrun. unfold st_bind in Hrun.
  rewrite (cursor_execute_seed cur cs w rows v) in Hrun
    by (done || apply Hl; left).
  destruct (w_faults w) as [|[e|] fs] eqn:Hf.
  2: { injection Hrun as <- <-.
       refine (conj _ (conj _ (conj _ (conj _ _)))); try done.
       intros Hq; by destruct (quiet_proceeds w e fs Hq). }
  all: destruct (bool_decide (c_txn cs = None)
                 && write_locked_by_other (c_path cs) (cur_connection cur) (w_conns w))
         eqn:Hlock.
  1,3: injection Hrun as <- <-;
       refine (conj _ (conj _ (conj _ (conj _ _)))); try done;
       intros _ Hfree; apply andb_true_iff in Hlock as [Htxn Hl'];
       apply bool_decide_eq_true in Htxn; rewrite (Hfree Htxn) in Hl'; done.
  all: match type of Hrun with execute_each _ _ _ ?x = _ => set (w1 := x) in * end;
    set (rows1 := upsert_seed (w_now w) rows v) in *;
    set (cs1 := set_txn (Some (<["users" := Table users_columns rows1]> (view cs w))) cs)
      in *;
    assert (w_conns w1 !! cur_connection cur = Some cs1) as Hc1
      by (subst w1; simpl; apply lookup_insert_eq);
    assert (view cs1 w1 !! "users" = Some (Table users_columns rows1)) as Hview1
      by (subst cs1; unfold view; simpl; apply lookup_insert_eq);
    destruct (IH (λ v' Hv', Hl v' (list_elem_of_further _ _ _ Hv'))
                 w1 cs1 rows1 r w' Hc1 Hview1 Hrun)
      as (Hfiles & Hnow & Hothers & Hdone & Hquiet);
    (split; [by rewrite Hfiles|]);
    (split; [by rewrite Hnow|]);
    (split; [intros c' Hc'; rewrite (Hothers c' Hc'); subst w1; simpl;
             by rewrite lookup_insert_ne|]);
    split.
  1,3: intros Hr _; destruct l as [|v2 l];
       [ injection Hrun as _ <-; exact Hc1
       | rewrite (Hdone Hr) by done; subst cs1 rows1; unfold view, set_txn; simpl;
         by rewrite insert_insert_eq ].
  all: intros Hq _; apply Hquiet;
       [ subst w1; apply (quiet_proceeded w Hq) | subst cs1; simpl; done ].
Qed.

(** The schema step on a connection outside a transaction: either the
    files are left as they were, or the users table was absent from the
    file of the connection and is now in it, declared and empty. *)
Lemma createUserTable_cases cur cs w r w' :
  w_conns w !! cur_connection cur = Some cs →
  c_txn cs = None →
  is_private (c_path cs) = false →
  _createUserTable cur w = (r, w') →
  w_conns w' = w_conns w
  ∧ w_now w' = w_now w
  ∧ ((w_files w' = w_files w
      ∧ (r = Ret tt → is_Some (committed (c_path cs) w !! "users")))
     ∨ (r = Ret tt
        ∧ committed (c_path cs) w !! "users" = None
        ∧ w_files w'
          = <[c_path cs := <["users" := Table users_columns ∅]>
                             (committed (c_path cs) w)]> (w_files w))).
Proof.
  intros Hc Htxn Hpriv Hrun.
  rewrite (createUserTable_unfold cur cs w Hc Htxn Hpriv) in Hrun.
  destruct (w_faults w) as [|[e|] fs] eqn:Hf.
  2: { injection Hrun as <- <-. split; [done|]. split; [done|]. left. by split. }
  all: destruct (committed (c_path cs) w !! "users") as [t|] eqn:Ht.
  1,3: injection Hrun as <- <-; split; [done|]; split; [done|]; left; split; eauto.
  all: destruct (write_locked_by_other _ _ _) eqn:Hlock;
    injection Hrun as <- <-; (split; [done|]); (split; [done|]);
    first [ left; by split | right; by split ].
Qed.

(** The schema step leaves the other files and the rows of the users table
    as they were; after it has returned, the table exists with the declared
    columns. *)
Lemma createUserTable_effect cur cs w r w' :
  w_conns w !! cur_connection cur = Some cs →
  c_txn cs = None →
  is_private (c_path cs) = false →
  users_declared (committed (c_path cs) w) →
  _createUserTable cur w = (r, w') →
  w_conns w' = w_conns w
  ∧ w_now w' = w_now w
  ∧ (∀ q, q ≠ c_path cs → w_files w' !! q = w_files w !! q)
  ∧ users_declared (committed (c_path cs) w')
  ∧ users_rows (committed (c_path cs) w') = users_rows (committed (c_path cs) w)
  ∧ (r = Ret tt →
       committed (c_path cs) w' !! "users"
       = Some (Table users_columns (users_rows (committed (c_path cs) w)))).
Proof.
  intros Hc Htxn Hpriv Hdecl Hrun.
  destruct (createUserTable_cases cur cs w r w' Hc Htxn Hpriv Hrun)
    as (Hconns & Hnow & [[Hfiles Hsome] | (Hr & Hnone & Hfiles)]).
  - assert (committed (c_path cs) w' = committed (c_path cs) w) as Hcom
      by (unfold committed; by rewrite Hfiles).
    refine (conj _ (conj _ (conj _ (conj _ (conj _ _))))); try done.
    + intros q _. by rewrite Hfiles.
    + by rewrite Hcom.
    + by rewrite Hcom.
    + intros Hr. destruct (Hsome Hr) as [t Ht]. rewrite Hcom, Ht.
      unfold users_rows. rewrite Ht. simpl.
      specialize (Hdecl t Ht). destruct t; simpl in *; by subst.
  - assert (committed (c_path cs) w'
            = <["users" := Table users_columns ∅]> (committed (c_path cs) w)) as Hcom.
    { unfold committed at 1. by rewrite Hpriv, Hfiles, lookup_insert_eq. }
    refine (conj _ (conj _ (conj _ (conj _ (conj _ _))))); try done.
    + intros q Hq. by rewrite Hfiles, lookup_insert_ne.
    + rewrite Hcom. intros t. rewrite lookup_insert_eq. by intros [= <-].
    + rewrite Hcom. unfold users_rows. by rewrite lookup_insert_eq, Hnone.
    + intros _. rewrite Hcom, lookup_insert_eq. unfold users_rows. by rewrite Hnone.
Qed.

(** The schema step returns when no fault is pending and no other
    connection holds the write lock. *)
Lemma createUserTable_quiet cur cs w :
  w_conns w !! cur_connection cur = Some cs →
  c_txn cs = None →
  is_private (c_path cs) = false →
  quiet w →
  write_locked_by_other (c_path cs) (cur_connection cur) (w_conns w) = false →
  ∃ w', _createUserTable cur w = (Ret tt, w') ∧ quiet w'.
Proof.
  intros Hc Htxn Hpriv Hq Hfree.
  rewrite (createUserTable_unfold cur cs w Hc Htxn Hpriv), Hfree.
  pose proof (quiet_proceeded w Hq) as Hq'.
  destruct (w_faults w) as [|[e|] fs] eqn:Hf.
  2: by destruct (quiet_proceeds w e fs Hq).
  all: destruct (committed (c_path cs) w !! "users"); eauto.
Qed.

(** The seed step on a connection that sees the users table. *)
Lemma insertSampleData_effect cur cs w rows r w' :
  w_conns w !! cur_connection cur = Some cs →
  view cs w !! "users" = Some (Table users_columns rows) →
  _insertSampleData cur w = (r, w') →
  w_files w' = w_files w
  ∧ w_now w' = w_now w
  ∧ (∀ c', c' ≠ cur_connection cur → w_conns w' !! c' = w_conns w !! c')
  ∧ (r = Ret tt →
       w_conns w' !! cur_connection cur
       = Some (set_txn
                 (Some (<["users" := Table users_columns (seeded (w_now w) rows)]>
                          (view cs w))) cs))
  ∧ (quiet w →
     (c_txn cs = None →
      write_locked_by_other (c_path cs) (cur_connection cur) (w_conns w) = false) →
     r = Ret tt ∧ quiet w').
Proof.
  intros Hc Hview.
  unfold _insertSampleData, cursor_executemany, st_bind, connection_state.
  rewrite Hc. change (is_dml insert_user) with true. cbv iota. intros Hrun.
  destruct (execute_each_seeds cur sampleUsers (λ _ H, H) w cs rows r w' Hc Hview Hrun)
    as (Hfiles & Hnow & Hothers & Hdone & Hquiet).
  refine (conj _ (conj _ (conj _ (conj _ _)))); try done.
  intros Hr. by apply Hdone.
Qed.

Lemma connection_commit_unfold c cs db w :
  w_conns w !! c = Some cs →
  c_txn cs = Some db →
  is_private (c_path cs) = false →
  connection_commit c w =
  match w_faults w with
  | Some e :: fs => (Raise e, set_faults fs w)
  | _ =>
      (Ret tt,
       set_files (<[c_path cs := db]> (w_files w))
         (set_conns (<[c := set_txn None cs]> (w_conns w)) (proceeded w)))
  end.
Proof.
  intros Hc Htxn Hpriv. unfold connection_commit, st_bind, connection_state.
  rewrite Hc, Htxn, engine_call_unfold, Hpriv.
  by destruct (w_faults w) as [|[e|] fs].
Qed.

(** The lock held by others does not depend on the state of the
    connection that asks. *)
Lemma write_locked_by_other_ext path c (m1 m2 : gmap nat conn_state) :
  (∀ c', c' ≠ c → m1 !! c' = m2 !! c') →
  write_locked_by_other path c m1 = write_locked_by_other path c m2.
Proof.
  intros Hm. unfold write_locked_by_other. f_equal. apply bool_decide_ext.
  unfold map_Exists. split; intros (c' & cs & Hcs & Hne & Hrest);
    exists c', cs; (split; [|done]); [rewrite <- Hm | rewrite Hm]; done.
Qed.

(** The block of the [with] statement of [initializeDatabase], run on an
    open connection outside a transaction. When it returns, the users table
    of the file holds the upserts over the rows it held before; when it
    raises, it holds the rows it held before. *)
Lemma initialize_block_effect c cs w r w' :
  w_conns w !! c = Some cs →
  c_txn cs = None →
  is_private (c_path cs) = false →
  users_declared (committed (c_path cs) w) →
  (let* cursor := connection_cursor c in
   _createUserTable cursor >>
   _insertSampleData cursor >>
   connection_commit c >>
   logging_info "Database initialized successfully" >>
   st_ret true) w = (r, w') →
  w_now w' = w_now w
  ∧ (∀ q, q ≠ c_path cs → w_files w' !! q = w_files w !! q)
  ∧ (∀ c', c' ≠ c → w_conns w' !! c' = w_conns w !! c')
  ∧ users_declared (committed (c_path cs) w')
  ∧ (r = Ret true →
       committed (c_path cs) w' !! "users"
       = Some (Table users_columns
                 (seeded (w_now w) (users_rows (committed (c_path cs) w)))))
  ∧ (r ≠ Ret true →
       users_rows (committed (c_path cs) w') = users_rows (committed (c_path cs) w)).
Proof.
  intros Hc Htxn Hpriv Hdecl.
  unfold st_bind at 1. unfold connection_cursor, st_bind at 1, connection_state.
  rewrite Hc. cbv beta iota. unfold st_ret at 1.
  set (cur := {| cur_connection := c |}).
  unfold st_bind at 1.
  destruct (_createUserTable cur w) as [[[]|e] w1] eqn:Hcreate;
    destruct (createUserTable_effect cur cs w _ w1 Hc Htxn Hpriv Hdecl Hcreate)
      as (Hconns1 & Hnow1 & Hfiles1 & Hdecl1 & Hrows1 & Htable1).
  2: { intros [= <- <-]. refine (conj _ (conj _ (conj _ (conj _ (conj _ _))))); try done.
       intros c' _. by rewrite Hconns1. }
  specialize (Htable1 eq_refl).
  assert (w_conns w1 !! cur_connection cur = Some cs) as Hc1
    by (by rewrite Hconns1).
  assert (view cs w1 !! "users"
          = Some (Table users_columns (users_rows (committed (c_path cs) w)))) as Hview1.
  { unfold view. by rewrite Htxn. }
  unfold st_bind at 1.
  destruct (_insertSampleData cur w1) as [[[]|e] w2] eqn:Hseed;
    destruct (insertSampleData_effect cur cs w1 _ _ w2 Hc1 Hview1 Hseed)
      as (Hfiles2 & Hnow2 & Hconns2 & Hdone2 & _).
  2: { intros [= <- <-].
       assert (committed (c_path cs) w2 = committed (c_path cs) w1) as Hcom
         by (unfold committed; by rewrite Hfiles2).
       refine (conj _ (conj _ (conj _ (conj _ (conj _ _))))); try done.
       - by rewrite Hnow2.
       - intros q Hq. by rewrite Hfiles2, Hfiles1.
       - intros c' Hc'. by rewrite (Hconns2 c' Hc'), Hconns1.
       - by rewrite Hcom.
       - intros _. by rewrite Hcom. }
  specialize (Hdone2 eq_refl). simpl in Hdone2.
  set (db5 := <["users" := Table users_columns
                            (seeded (w_now w1) (users_rows (committed (c_path cs) w)))]>
                (view cs w1)) in *.
  unfold st_bind at 1.
  rewrite (connection_commit_unfold c _ _ w2 Hdone2 eq_refl Hpriv).
  assert (∀ e wq, w_files wq = w_files w2 → w_now wq = w_now w2 →
            w_conns wq = w_conns w2 →
            w_now wq = w_now w
            ∧ (∀ q, q ≠ c_path cs → w_files wq !! q = w_files w !! q)
            ∧ (∀ c', c' ≠ c → w_conns wq !! c' = w_conns w !! c')
            ∧ users_declared (committed (c_path cs) wq)
            ∧ ((Raise e : outcome bool) = Ret true →
                 committed (c_path cs) wq !! "users"
                 = Some (Table users_columns
                           (seeded (w_now w) (users_rows (committed (c_path cs) w)))))
            ∧ ((Raise e : outcome bool) ≠ Ret true →
                 users_rows (committed (c_path cs) wq)
                 = users_rows (committed (c_path cs) w))) as Hfault.
  { intros e wq Hfq Hnq Hcq.
    assert (committed (c_path cs) wq = committed (c_path cs) w1) as Hcom
      by (unfold committed; by rewrite Hfq, Hfiles2).
    refine (conj _ (conj _ (conj _ (conj _ (conj _ _))))); try done.
    - by rewrite Hnq, Hnow2.
    - intros q Hq. by rewrite Hfq, Hfiles2, Hfiles1.
    - intros c' Hc'. by rewrite Hcq, (Hconns2 c' Hc'), Hconns1.
    - by rewrite Hcom.
    - intros _. by rewrite Hcom. }
  destruct (w_faults w2) as [|[e|] fs] eqn:Hf.
  2: { intros [= <- <-]. by apply Hfault. }
  all: unfold st_bind, logging_info, st_ret; intros [= <- <-];
    match goal with |- w_now ?x = _ ∧ _ => set (wf := x) end;
    assert (committed (c_path cs) wf = db5) as Hcom
      by (unfold committed; rewrite Hpriv; subst wf;
          rewrite info_logged_files; simpl; by rewrite lookup_insert_eq);
    assert (db5 !! "users"
            = Some (Table users_columns
                      (seeded (w_now w) (users_rows (committed (c_path cs) w))))) as Hdb5
      by (subst db5; rewrite Hnow1; apply lookup_insert_eq);
    refine (conj _ (conj _ (conj _ (conj _ (conj _ _))))); try done;
    [ subst wf; rewrite info_logged_now; simpl; by rewrite Hnow2
    | intros q Hq; subst wf; rewrite info_logged_files; simpl;
      by rewrite lookup_insert_ne, Hfiles2, Hfiles1
    | intros c' Hc'; subst wf; rewrite info_logged_conns; simpl;
      by rewrite lookup_insert_ne, (Hconns2 c' Hc'), Hconns1
    | rewrite Hcom; intros t; rewrite Hdb5; by intros [= <-]
    | intros _; by rewrite Hcom ].
Qed.

(** What a run of [initializeDatabase] does to the files, whatever the
    surroundings do to it. The clock, the other files and the other
    connections are left as they were. When the run returns [True] the users
    table holds the upserts over the rows it held before; in every other
    case it holds the rows it held before. *)
Lemma initializeDatabase_effect self w r w' :
  is_private (dbPath self) = false →
  users_declared (committed (dbPath self) w) →
  initializeDatabase self w = (r, w') →
  w_now w' = w_now w
  ∧ (∀ q, q ≠ dbPath self → w_files w' !! q = w_files w !! q)
  ∧ (∀ c', c' ≠ w_next_handle w → w_conns w' !! c' = w_conns w !! c')
  ∧ users_declared (committed (dbPath self) w')
  ∧ (r = Ret true →
       committed (dbPath self) w' !! "users"
       = Some (Table users_columns
                 (seeded (w_now w) (users_rows (committed (dbPath self) w)))))
  ∧ (r ≠ Ret true →
       users_rows (committed (dbPath self) w') = users_rows (committed (dbPath self) w)).
Proof.
  intros Hpriv Hdecl. unfold initializeDatabase, try_except.
  rewrite getConnection_unfold.
  destruct (sqlite3_connect _ _ w) as [[c|e] w1] eqn:Hopen.
  2: { apply sqlite3_connect_fault in Hopen as [(_ & _ & ->) | (_ & fs & _ & ->)];
         unfold connection_error_logged, st_bind, logging_error, st_ret;
         destruct (is_sqlite3_Error e); intros [= <- <-];
         refine (conj _ (conj _ (conj _ (conj _ (conj _ _))))); done. }
  pose proof (sqlite3_connect_opens _ _ _ _ _ Hopen) as Hc1.
  assert (c = w_next_handle w ∧ w_files w1 = w_files w ∧ w_now w1 = w_now w
          ∧ ∀ c', c' ≠ c → w_conns w1 !! c' = w_conns w !! c')
    as (-> & Hfiles1 & Hnow1 & Hconns1).
  { rewrite sqlite3_connect_unfold in Hopen by (by eapply sqlite3_connect_fits).
    destruct (w_faults w) as [|[e'|] fs]; try discriminate;
      injection Hopen as <- <-; simpl;
      (split; [done|]); (split; [done|]); (split; [done|]);
      intros c' Hc'; by rewrite lookup_insert_ne. }
  set (c := w_next_handle w) in *.
  set (cs := ConnState (dbPath self) (connectionTimeout self) Sqlite3_Row None).
  set (w2 := (set_row_factory c Sqlite3_Row w1).2).
  assert (w_conns w2 !! c = Some cs) as Hc2.
  { subst w2. unfold set_row_factory. simpl. by rewrite lookup_alter_eq, Hc1. }
  assert (w_files w2 = w_files w ∧ w_now w2 = w_now w
          ∧ ∀ c', c' ≠ c → w_conns w2 !! c' = w_conns w !! c')
    as (Hfiles2 & Hnow2 & Hconns2).
  { subst w2. unfold set_row_factory. simpl. split; [done|]. split; [done|].
    intros c' Hc'. by rewrite lookup_alter_ne, Hconns1. }
  assert (committed (dbPath self) w2 = committed (dbPath self) w) as Hcom2
    by (unfold committed; by rewrite Hfiles2).
  clearbody w2. clear Hopen Hc1 Hfiles1 Hnow1 Hconns1 w1.
  match goal with
  | |- context [st_bind (connection_cursor c) ?k w2] =>
      destruct (st_bind (connection_cursor c) k w2) as [rb w3] eqn:Hblock
  end.
  assert (users_declared (committed (c_path cs) w2)) as Hdecl2
    by (simpl; by rewrite Hcom2).
  destruct (initialize_block_effect c cs w2 rb w3 Hc2 eq_refl Hpriv Hdecl2 Hblock)
    as (Hnow3 & Hfiles3 & Hconns3 & Hdecl3 & Hdone3 & Hfail3).
  simpl in *.
  assert (∀ wq bq, w_files wq = w_files w3 → w_now wq = w_now w3 →
            (∀ c', c' ≠ c → w_conns wq !! c' = w_conns w3 !! c') →
            (bq = Ret true → rb = Ret true) →
            (bq ≠ Ret true → rb ≠ Ret true) →
            w_now wq = w_now w
            ∧ (∀ q, q ≠ dbPath self → w_files wq !! q = w_files w !! q)
            ∧ (∀ c', c' ≠ c → w_conns wq !! c' = w_conns w !! c')
            ∧ users_declared (committed (dbPath self) wq)
            ∧ (bq = Ret true →
                 committed (dbPath self) wq !! "users"
                 = Some (Table users_columns
                           (seeded (w_now w) (users_rows (committed (dbPath self) w)))))
            ∧ (bq ≠ Ret true →
                 users_rows (committed (dbPath self) wq)
                 = users_rows (committed (dbPath self) w))) as Hwrap.
  { intros wq bq Hfq Hnq Hcq Hyes Hno.
    assert (committed (dbPath self) wq = committed (dbPath self) w3) as Hcomq
      by (unfold committed; by rewrite Hfq).
    refine (conj _ (conj _ (conj _ (conj _ (conj _ _))))).
    - by rewrite Hnq, Hnow3.
    - intros q Hq. by rewrite Hfq, (Hfiles3 q Hq), Hfiles2.
    - intros c' Hc'. by rewrite (Hcq c' Hc'), (Hconns3 c' Hc'), Hconns2.
    - by rewrite Hcomq.
    - intros Hb. by rewrite Hcomq, (Hdone3 (Hyes Hb)), Hnow2, Hcom2.
    - intros Hb. by rewrite Hcomq, (Hfail3 (Hno Hb)), Hcom2. }
  destruct rb as [b|e].
  - intros [= <- <-]. apply Hwrap; try done.
    intros c' Hc'. simpl. by rewrite lookup_delete_ne.
  - unfold connection_error_logged, st_bind, logging_error, st_ret.
    destruct (is_sqlite3_Error e); intros [= <- <-]; apply Hwrap; try done;
      intros c' Hc'; simpl; by rewrite lookup_delete_ne.
Qed.

(** [initializeDatabase] on a file returns [True] when the timeout fits,
    no fault is pending, the users table is absent or as declared, and no
    open connection holds the write lock of the file. *)
Lemma initializeDatabase_quiet self w :
  timeout_fits (connectionTimeout self) = true →
  is_private (dbPath self) = false →
  users_declared (committed (dbPath self) w) →
  quiet w →
  write_locked_by_other (dbPath self) (w_next_handle w) (w_conns w) = false →
  ∃ w', initializeDatabase self w = (Ret true, w') ∧ quiet w'.
Proof.
  intros Hfit Hpriv Hdecl Hq Hfree. unfold initializeDatabase, try_except.
  rewrite getConnection_unfold.
  destruct (sqlite3_connect _ _ w) as [[c|e] w1] eqn:Hopen.
  2: { rewrite sqlite3_connect_unfold in Hopen by done.
       destruct (w_faults w) as [|[e'|] fs] eqn:Hf; try discriminate.
       by destruct (quiet_proceeds w e' fs Hq). }
  pose proof (sqlite3_connect_opens _ _ _ _ _ Hopen) as Hc1.
  assert (c = w_next_handle w ∧ w_files w1 = w_files w ∧ quiet w1
          ∧ ∀ c', c' ≠ c → w_conns w1 !! c' = w_conns w !! c')
    as (-> & Hfiles1 & Hq1 & Hconns1).
  { pose proof (quiet_proceeded w Hq) as Hq'.
    rewrite sqlite3_connect_unfold in Hopen by done.
    destruct (w_faults w) as [|[e'|] fs] eqn:Hf; try discriminate;
      injection Hopen as <- <-; simpl;
      (split; [done|]); (split; [done|]);
      (split; [unfold quiet, proceeded in *; simpl in *; by rewrite ?Hf in Hq'|]);
      intros c' Hc'; by rewrite lookup_insert_ne. }
  set (c := w_next_handle w) in *.
  set (cs := ConnState (dbPath self) (connectionTimeout self) Sqlite3_Row None).
  set (w2 := (set_row_factory c Sqlite3_Row w1).2).
  assert (w_conns w2 !! c = Some cs) as Hc2.
  { subst w2. unfold set_row_factory. simpl. by rewrite lookup_alter_eq, Hc1. }
  assert (w_files w2 = w_files w ∧ quiet w2
          ∧ ∀ c', c' ≠ c → w_conns w2 !! c' = w_conns w !! c')
    as (Hfiles2 & Hq2 & Hconns2).
  { subst w2. unfold set_row_factory. simpl. split; [done|]. split; [done|].
    intros c' Hc'. by rewrite lookup_alter_ne, Hconns1. }
  assert (committed (dbPath self) w2 = committed (dbPath self) w) as Hcom2
    by (unfold committed; by rewrite Hfiles2).
  clearbody w2. clear Hopen Hc1 Hfiles1 Hq1 Hconns1 w1.
  assert (write_locked_by_other (c_path cs) c (w_conns w2) = false) as Hfree2.
  { rewrite <- Hfree. by apply write_locked_by_other_ext. }
  assert (users_declared (committed (c_path cs) w2)) as Hdecl2
    by (simpl; by rewrite Hcom2).
  unfold st_bind at 1. unfold connection_cursor, st_bind at 1, connection_state.
  rewrite Hc2. cbv beta iota. unfold st_ret at 1.
  set (cur := {| cur_connection := c |}).
  destruct (createUserTable_quiet cur cs w2 Hc2 eq_refl Hpriv Hq2 Hfree2) as (w3 & Hcreate & Hq3).
  destruct (createUserTable_effect cur cs w2 _ w3 Hc2 eq_refl Hpriv Hdecl2 Hcreate)
    as (Hconns3 & _ & _ & _ & _ & Htable3).
  specialize (Htable3 eq_refl).
  unfold st_bind at 1. rewrite Hcreate.
  assert (w_conns w3 !! cur_connection cur = Some cs) as Hc3 by (by rewrite Hconns3).
  destruct (_insertSampleData cur w3) as [r4 w4] eqn:Hseed.
  destruct (insertSampleData_effect cur cs w3 _ _ w4 Hc3 Htable3 Hseed)
    as (_ & _ & _ & Hdone4 & Hquiet4).
  destruct Hquiet4 as [-> Hq4]; [done | by rewrite Hconns3 |].
  specialize (Hdone4 eq_refl).
  unfold st_bind at 1. rewrite Hseed.
  unfold st_bind at 1.
  rewrite (connection_commit_unfold c _ _ w4 Hdone4 eq_refl Hpriv).
  pose proof (quiet_proceeded w4 Hq4) as Hq5.
  destruct (w_faults w4) as [|[e|] fs] eqn:Hf.
  2: by destruct (quiet_proceeds w4 e fs Hq4).
  all: unfold st_bind, logging_info, st_ret; eexists; split; [reflexivity|];
    unfold quiet, closed; simpl; rewrite info_logged_faults; exact Hq5.
Qed.

End steps.

(* ===================================================================== *)
(** ** The rows of the users table across runs *)
(* ===================================================================== *)

Section rows.
Import Sqlite.

Lemma returned_true_or_not (r : outcome bool) : r = Ret true ∨ r ≠ Ret true.
Proof. destruct r as [[|]|e]; [by left | by right | by right]. Qed.

(** Nothing is committed at a private path; a committed row is in a file. *)
Lemma committed_private path w : is_private path = true → committed path w = ∅.
Proof. intros Hp. unfold committed. by rewrite Hp. Qed.

Lemma committed_row_on_file path w k row :
  users_rows (committed path w) !! k = Some row → is_private path = false.
Proof.
  destruct (is_private path) eqn:Hp; [|done].
  rewrite committed_private by done. unfold users_rows.
  by rewrite lookup_empty.
Qed.

(** The seed ids are 1 to 5. *)
Lemma seed_with_id_range k : is_Some (seed_with_id k) ↔ (1 ≤ k ≤ 5)%Z.
Proof.
  split.
  - intros [vals Hk]. unfold seed_with_id in Hk.
    destruct (list_find _ sampleUsers) as [[i vals']|] eqn:Hfind; [|done].
    apply list_find_Some in Hfind as (Hi & Hid & _).
    unfold sampleUsers in Hi.
    destruct i as [|[|[|[|[|i]]]]]; simpl in Hi; try done;
      injection Hi as <-; injection Hid as <-; lia.
  - intros Hk.
    assert (k = 1 ∨ k = 2 ∨ k = 3 ∨ k = 4 ∨ k = 5) as Hcases by lia.
    destruct Hcases as [->|[->|[->|[->| ->]]]]; vm_compute; eauto.
Qed.

Lemma seed_with_id_elem vals k :
  vals ∈ sampleUsers → vals !! 0%nat = Some (VInt k) → seed_with_id k = Some vals.
Proof.
  intros Hin Hk. unfold sampleUsers in Hin.
  repeat (apply elem_of_cons in Hin as [-> | Hin]);
    [..| by apply elem_of_nil in Hin]; injection Hk as <-; reflexivity.
Qed.


(** C7, as stated, fails: a run may delete a row. On a users table that
    holds one row, with id 6 and the email of the first seed row, the run
    returns [True] and the row is gone: INSERT OR REPLACE resolves the
    conflict on the UNIQUE column [email] by deleting the stored row. *)
Lemma initialize_deletes_row_with_seed_email :
  ¬ (∀ self w r w',
       users_declared (committed (dbPath self) w) →
       initializeDatabase self w = (r, w') →
       ∀ k row,
         users_rows (committed (dbPath self) w) !! k = Some row →
         is_Some (users_rows (committed (dbPath self) w') !! k)).
Proof.
  intros Hkeeps.
  assert (users_declared (committed (dbPath default_self) eve_world)) as Hdecl.
  { intros t Ht. vm_compute in Ht. by injection Ht as <-. }
  destruct (initializeDatabase default_self eve_world) as [r w'] eqn:Hrun.
  assert (users_rows (committed (dbPath default_self) eve_world) !! 6 = Some eve_row)
    as Hrow by (vm_compute; reflexivity).
  specialize (Hkeeps default_self eve_world r w' Hdecl Hrun 6 eve_row Hrow).
  vm_compute in Hrun. injection Hrun as <- <-.
  vm_compute in Hkeeps. by destruct Hkeeps.
Qed.

(** C7, amended. Over a users table that is absent or as declared, every
    row present before a run is still present after it, with one
    exception. A row with id 1 to 5 is present afterwards (overwritten when
    the run returns [True]). A row with another id whose email is not that
    of a seed row is left exactly as it was. A run that does not return
    [True] leaves every row as it was. The exception: a row with an id
    outside 1 to 5 whose email is that of a seed row is deleted by a run
    that returns [True]. *)
Theorem initialize_keeps_rows self w r w' k row :
  users_declared (committed (dbPath self) w) →
  initializeDatabase self w = (r, w') →
  users_rows (committed (dbPath self) w) !! k = Some row →
  ((1 ≤ k ≤ 5)%Z → is_Some (users_rows (committed (dbPath self) w') !! k))
  ∧ (¬ (1 ≤ k ≤ 5)%Z → ¬ has_seed_email row →
       users_rows (committed (dbPath self) w') !! k = Some row)
  ∧ (r ≠ Ret true → users_rows (committed (dbPath self) w') !! k = Some row)
  ∧ (¬ (1 ≤ k ≤ 5)%Z → has_seed_email row → r = Ret true →
       users_rows (committed (dbPath self) w') !! k = None).
Proof.
  intros Hdecl Hrun Hrow.
  pose proof (committed_row_on_file _ _ _ _ Hrow) as Hpriv.
  destruct (initializeDatabase_effect self w r w' Hpriv Hdecl Hrun)
    as (_ & _ & _ & _ & Hdone & Hfail).
  assert (r = Ret true →
          users_rows (committed (dbPath self) w')
          = seeded (w_now w) (users_rows (committed (dbPath self) w))) as Hseeded.
  { intros Hr. unfold users_rows at 1. by rewrite (Hdone Hr). }
  assert (¬ (1 ≤ k ≤ 5)%Z → seed_with_id k = None) as Hnone.
  { intros Hk. destruct (seed_with_id k) eqn:Hs; [|done].
    destruct Hk. apply seed_with_id_range. by rewrite Hs. }
  destruct (returned_true_or_not r) as [Hr|Hr].
  - rewrite (Hseeded Hr). refine (conj _ (conj _ (conj _ _))); try done.
    + intros Hk. apply seed_with_id_range in Hk as [vals Hvals].
      rewrite seeded_lookup, Hvals. eauto.
    + intros Hk Hemail. rewrite seeded_lookup, (Hnone Hk), Hrow. simpl.
      by rewrite decide_False.
    + intros Hk Hemail _. rewrite seeded_lookup, (Hnone Hk), Hrow. simpl.
      by rewrite decide_True.
  - rewrite (Hfail Hr), Hrow. refine (conj _ (conj _ (conj _ _))); eauto.
    intros _ _ Hr'. done.
Qed.

Lemma initialize_keeps_rows_witness :
  users_rows (committed "users.db" (initializeDatabase default_self eve_world).2) !! 6
  = None.
Proof.
  refine (proj2 (proj2 (proj2
            (initialize_keeps_rows default_self eve_world
               (initializeDatabase default_self eve_world).1
               (initializeDatabase default_self eve_world).2
               6 eve_row _ _ _))) _ _ _).
  - intros t Ht. vm_compute in Ht. by injection Ht as <-.
  - vm_compute; reflexivity.
  - vm_compute; reflexivity.
  - lia.
  - exists (VText "john@example.com"). split; [reflexivity|].
    vm_compute. apply list_elem_of_here.
  - vm_compute; reflexivity.
Defined.





(** C3, as stated, fails in its last part: the seed step does remove a row
    on a key other than the id. On a users table that holds one row, with
    id 6 and the email of the first seed row, the seed step returns and the
    connection no longer sees a row with id 6. *)
Lemma seed_step_removes_row_on_email :
  ¬ (∀ cur cs w rows w',
       w_conns w !! cur_connection cur = Some cs →
       view cs w !! "users" = Some (Table users_columns rows) →
       _insertSampleData cur w = (Ret tt, w') →
       ∀ k row,
         seed_with_id k = None →
         rows !! k = Some row →
         ∃ cs', w_conns w' !! cur_connection cur = Some cs'
                ∧ users_rows (view cs' w') !! k = Some row).
Proof.
  intros Hkeeps.
  destruct (_insertSampleData eve_cursor eve_connected) as [r w'] eqn:Hrun.
  vm_compute in Hrun. injection Hrun as <- <-.
  match type of Hkeeps with
  | context [_insertSampleData _ _ = (Ret tt, _)] => idtac
  end.
  edestruct (Hkeeps eve_cursor (ConnState "users.db" 30 TupleRows None)
               eve_connected {[ 6 := eve_row ]})
    as (cs' & Hcs' & Hrow);
    [ vm_compute; reflexivity | vm_compute; reflexivity | vm_compute; reflexivity
    | | | ].
  - instantiate (1 := 6). vm_compute; reflexivity.
  - instantiate (1 := eve_row). vm_compute; reflexivity.
  - vm_compute in Hcs'. injection Hcs' as <-.
    vm_compute in Hrow. discriminate.
Qed.

(** C3, amended. The seed step executes the upsert for exactly the five
    literal rows. On a connection that sees the users table as declared,
    once the step has returned the connection sees, at each seed id, the six
    values of the seed row (and the [created_at] of the time of the step),
    whatever was stored there; every other stored row is as it was, unless
    it has the email of a seed row, in which case it has been removed; and
    no other row has appeared. The conflicts that replace a stored row are
    those on the primary key [id] and on the unique [email]. The step
    returns when no fault is pending and no other connection holds the
    write lock. *)
Theorem seed_step_upserts cur cs w rows r w' :
  w_conns w !! cur_connection cur = Some cs →
  view cs w !! "users" = Some (Table users_columns rows) →
  _insertSampleData cur w = (r, w') →
  _insertSampleData cur
  = cursor_executemany cur insert_user
      [ [VInt 1; VText "John Doe"; VText "john@example.com"; VInt 30;
         VText "IT"; real 75000];
        [VInt 2; VText "Jane Smith"; VText "jane@example.com"; VInt 28;
         VText "HR"; real 65000];
        [VInt 3; VText "Bob Johnson"; VText "bob@example.com"; VInt 35;
         VText "Finance"; real 80000];
        [VInt 4; VText "Alice Brown"; VText "alice@example.com"; VInt 32;
         VText "IT"; real 78000];
        [VInt 5; VText "Charlie Davis"; VText "charlie@example.com"; VInt 29;
         VText "Marketing"; real 70000] ]
  ∧ (r = Ret tt →
     ∃ cs' rows',
       w_conns w' !! cur_connection cur = Some cs'
       ∧ view cs' w' !! "users" = Some (Table users_columns rows')
       ∧ (∀ vals k, vals ∈ sampleUsers → vals !! 0%nat = Some (VInt k) →
            rows' !! k = Some (vals ++ [VText (w_now w)]))
       ∧ (∀ k, ¬ (1 ≤ k ≤ 5)%Z →
            rows' !! k
            = rows !! k ≫= λ row, if decide (has_seed_email row) then None
                                   else Some row))
  ∧ (quiet w →
     (c_txn cs = None →
      write_locked_by_other (c_path cs) (cur_connection cur) (w_conns w) = false) →
     r = Ret tt).
Proof.
  intros Hc Hview Hrun.
  destruct (insertSampleData_effect cur cs w rows r w' Hc Hview Hrun)
    as (_ & _ & _ & Hdone & Hquiet).
  split; [reflexivity|]. split.
  - intros Hr. eexists _, (seeded (w_now w) rows).
    split; [exact (Hdone Hr)|]. split; [|split].
    + unfold view. simpl. apply lookup_insert_eq.
    + intros vals k Hin Hk.
      by rewrite seeded_lookup, (seed_with_id_elem vals k Hin Hk).
    + intros k Hk. rewrite seeded_lookup.
      destruct (seed_with_id k) eqn:Hs; [|done].
      destruct Hk. apply seed_with_id_range. by rewrite Hs.
  - intros Hq Hfree. by destruct (Hquiet Hq Hfree).
Qed.

Lemma seed_step_upserts_witness :
  ∃ cs' rows',
    w_conns (_insertSampleData eve_cursor eve_connected).2 !! 0%nat = Some cs'
    ∧ view cs' (_insertSampleData eve_cursor eve_connected).2 !! "users"
      = Some (Table users_columns rows')
    ∧ (∀ vals k, vals ∈ sampleUsers → vals !! 0%nat = Some (VInt k) →
         rows' !! k = Some (vals ++ [VText "2026-01-01 00:00:00"]))
    ∧ (∀ k, ¬ (1 ≤ k ≤ 5)%Z →
         rows' !! k
         = ({[ 6 := eve_row ]} : gmap Z (list value)) !! k
           ≫= λ row, if decide (has_seed_email row) then None else Some row).
Proof.
  refine (proj1 (proj2
            (seed_step_upserts eve_cursor (ConnState "users.db" 30 TupleRows None)
               eve_connected {[ 6 := eve_row ]}
               (_insertSampleData eve_cursor eve_connected).1
               (_insertSampleData eve_cursor eve_connected).2 _ _ _)) _);
    vm_compute; reflexivity.
Defined.

End rows.

(* ===================================================================== *)
(** ** The schema step *)
(* ===================================================================== *)

Section schema.
Import Sqlite.



(** The name of a table is matched without regard to case: after
    CREATE TABLE Users the statement of the schema step finds the table and
    writes nothing. *)
Example createUserTable_other_spelling :
  ∀ db, step "2026-01-01 00:00:00"
          (CreateTable false "Users" (tbl_columns orders_table)) [] ∅ = Ret db →
    prepare create_users [] db = Ret tt
    ∧ writes create_users db = false
    ∧ step "2026-01-01 00:00:00" create_users [] db = Ret db.
Proof. intros db [= <-]. repeat split; vm_compute; reflexivity. Qed.



(** The release at work: a first call whose commit fails has written in a
    transaction, and returns [False]; its connection is closed on the way
    out, so no write lock is left behind and a second call returns
    [True]. *)
Example initialize_after_failed_commit :
  let calls := [("2026-01-01 00:00:00",
                 [None; None; None; None; None; None; None; Some disk_full]);
                ("2026-01-01 00:00:05", [])] in
  (initialize_times default_self calls (start_world ∅ "2026-01-01 00:00:00" [])).1
  = [Ret false; Ret true]
  ∧ w_conns (initialize_times default_self calls
               (start_world ∅ "2026-01-01 00:00:00" [])).2 = ∅.
Proof. split; vm_compute; reflexivity. Qed.

End schema.

(* ===================================================================== *)
(** ** What the steps leave alone *)
(* ===================================================================== *)

Section frame.
Import Sqlite.

Lemma same_outside_refl c path w : same_outside c path w w.
Proof. by repeat split. Qed.

Lemma same_outside_trans c path w1 w2 w3 :
  same_outside c path w1 w2 → same_outside c path w2 w3 →
  same_outside c path w1 w3.
Proof.
  intros (E1 & L1 & V1 & N1 & H1 & C1 & F1 & P1)
         (E2 & L2 & V2 & N2 & H2 & C2 & F2 & P2).
  refine (conj _ (conj _ (conj _ (conj _ (conj _ (conj _ (conj _ _)))))));
    try congruence.
  - intros c' Hc'. by rewrite (C2 c' Hc'), (C1 c' Hc').
  - intros q Hq. by rewrite (F2 q Hq), (F1 q Hq).
  - intros Hp. by rewrite (P2 Hp), (P1 Hp).
Qed.

Lemma same_outside_proceeded c path w : same_outside c path w (proceeded w).
Proof. by repeat split. Qed.

(** A statement changes no table but its own. *)
Lemma step_agree now stmt vals db db' :
  step now stmt vals db = Ret db' →
  agree_off (fold_case (stmt_table stmt)) db' db.
Proof.
  destruct stmt as [ine tname cols | tname cols n]; cbn [step stmt_table].
  - destruct (db !! fold_case tname); intros [= <-] t' Ht'; [done|].
    by rewrite lookup_insert_ne.
  - destruct (db !! fold_case tname) as [tbl|]; [|done].
    destruct (insert_or_replace now tname tbl cols vals) as [tbl'|e]; simpl; [|done].
    intros [= <-] t' Ht'. by rewrite lookup_insert_ne.
Qed.

Lemma cursor_execute_same_outside cur stmt vals cs w r w' :
  w_conns w !! cur_connection cur = Some cs →
  cursor_execute cur stmt vals w = (r, w') →
  same_outside (cur_connection cur) (c_path cs) w w'.
Proof.
  intros Hc. unfold cursor_execute, st_bind, connection_state.
  rewrite Hc, engine_call_unfold.
  assert (∀ wq, same_outside (cur_connection cur) (c_path cs) w wq →
            (let db := view cs wq in
             match prepare stmt vals db with
             | Raise e => (Raise e, wq)
             | Ret _ =>
                 if negb (writes stmt db) then (Ret tt, wq)
                 else if bool_decide (c_txn cs = None)
                         && write_locked_by_other (c_path cs) (cur_connection cur)
                              (w_conns wq)
                 then (Raise database_is_locked, wq)
                 else if bool_decide (is_Some (c_txn cs)) || is_dml stmt
                         || is_private (c_path cs) then
                   match step (w_now wq) stmt vals db with
                   | Ret db' =>
                       (Ret tt, set_conns (<[cur_connection cur := set_txn (Some db') cs]>
                                             (w_conns wq)) wq)
                   | Raise e =>
                       (Raise e, set_conns (<[cur_connection cur := set_txn (Some db) cs]>
                                              (w_conns wq)) wq)
                   end
                 else
                   match step (w_now wq) stmt vals db with
                   | Ret db' => (Ret tt, set_files (<[c_path cs := db']> (w_files wq)) wq)
                   | Raise e => (Raise e, wq)
                   end
             end) = (r, w') →
            same_outside (cur_connection cur) (c_path cs) w w') as Hbody.
  { intros wq Hq. cbv zeta.
    destruct (prepare _ _ _); [|by intros [= <- <-]].
    destruct (negb _); [by intros [= <- <-]|].
    destruct (_ && _); [by intros [= <- <-]|].
    destruct (_ || _ || _) eqn:Hmode; destruct (step _ _ _ _);
      intros [= <- <-]; try done.
    all: apply (same_outside_trans _ _ _ _ _ Hq);
      refine (conj _ (conj _ (conj _ (conj _ (conj _ (conj _ (conj _ _)))))));
      try done; simpl.
    1,2: intros c' Hc'; by rewrite lookup_insert_ne.
    - intros q Hq'. by rewrite lookup_insert_ne.
    - intros Hp. apply orb_false_iff in Hmode as [_ Hmode]. congruence. }
  destruct (w_faults w) as [|[e|] fs] eqn:Hf.
  - apply Hbody, same_outside_proceeded.
  - intros [= <- <-]. by repeat split.
  - apply Hbody, same_outside_proceeded.
Qed.

Lemma agree_off_trans t (d1 d2 d3 : database) :
  agree_off t d1 d2 → agree_off t d2 d3 → agree_off t d1 d3.
Proof. intros H12 H23 t' Ht'. by rewrite (H12 t' Ht'), (H23 t' Ht'). Qed.

Lemma cursor_execute_tracks cur stmt vals path base w r w' :
  tracks (cur_connection cur) path (fold_case (stmt_table stmt)) base w →
  cursor_execute cur stmt vals w = (r, w') →
  tracks (cur_connection cur) path (fold_case (stmt_table stmt)) base w'.
Proof.
  intros (Hcom & cs & Hc & <- & Hview).
  unfold cursor_execute, st_bind, connection_state.
  rewrite Hc, engine_call_unfold.
  assert (∀ wq, w_files wq = w_files w → w_conns wq = w_conns w →
            tracks (cur_connection cur) (c_path cs) (fold_case (stmt_table stmt))
              base wq) as Hsame.
  { intros wq Hf Hcn. split.
    - unfold committed. by rewrite Hf.
    - exists cs. rewrite Hcn. split; [done|]. split; [done|].
      unfold view, committed. by rewrite Hf. }
  assert (∀ wq, w_files wq = w_files w → w_conns wq = w_conns w →
            (let db := view cs wq in
             match prepare stmt vals db with
             | Raise e => (Raise e, wq)
             | Ret _ =>
                 if negb (writes stmt db) then (Ret tt, wq)
                 else if bool_decide (c_txn cs = None)
                         && write_locked_by_other (c_path cs) (cur_connection cur)
                              (w_conns wq)
                 then (Raise database_is_locked, wq)
                 else if bool_decide (is_Some (c_txn cs)) || is_dml stmt
                         || is_private (c_path cs) then
                   match step (w_now wq) stmt vals db with
                   | Ret db' =>
                       (Ret tt, set_conns (<[cur_connection cur := set_txn (Some db') cs]>
                                             (w_conns wq)) wq)
                   | Raise e =>
                       (Raise e, set_conns (<[cur_connection cur := set_txn (Some db) cs]>
                                              (w_conns wq)) wq)
                   end
                 else
                   match step (w_now wq) stmt vals db with
                   | Ret db' => (Ret tt, set_files (<[c_path cs := db']> (w_files wq)) wq)
                   | Raise e => (Raise e, wq)
                   end
             end) = (r, w') →
            tracks (cur_connection cur) (c_path cs) (fold_case (stmt_table stmt))
              base w') as Hbody.
  { intros wq Hf Hcn. cbv zeta.
    assert (view cs wq = view cs w) as ->
      by (unfold view, committed; by rewrite Hf).
    destruct (prepare _ _ _); [|intros [= <- <-]; by apply Hsame].
    destruct (negb _); [intros [= <- <-]; by apply Hsame|].
    destruct (_ && _); [intros [= <- <-]; by apply Hsame|].
    destruct (bool_decide (is_Some (c_txn cs)) || is_dml stmt
              || is_private (c_path cs)) eqn:Hmode;
      destruct (step _ _ _ _) as [db'|e] eqn:Hstep; intros [= <- <-];
      try (by apply Hsame).
    - split; [unfold committed; simpl; by rewrite Hf|].
      exists (set_txn (Some db') cs). simpl. rewrite lookup_insert_eq.
      split; [done|]. split; [done|].
      unfold view. simpl.
      exact (agree_off_trans _ _ _ _ (step_agree _ _ _ _ _ Hstep) Hview).
    - split; [unfold committed; simpl; by rewrite Hf|].
      exists (set_txn (Some (view cs w)) cs). simpl. rewrite lookup_insert_eq.
      split; [done|]. split; [done|]. unfold view at 1. simpl. exact Hview.
    - apply orb_false_iff in Hmode as [Hmode Hpriv].
      apply orb_false_iff in Hmode as [Htxn _].
      apply bool_decide_eq_false in Htxn.
      assert (c_txn cs = None) as Hnone
        by (destruct (c_txn cs); [destruct Htxn; eauto | done]).
      assert (committed (c_path cs)
                (set_files (<[c_path cs := db']> (w_files wq)) wq) = db') as Hcom'
        by (unfold committed; rewrite Hpriv; simpl; by rewrite lookup_insert_eq).
      split.
      + rewrite Hcom'.
        exact (agree_off_trans _ _ _ _ (step_agree _ _ _ _ _ Hstep) Hview).
      + exists cs. simpl. rewrite Hcn. split; [done|]. split; [done|].
        unfold view. rewrite Hnone. simpl. rewrite Hcom'.
        exact (agree_off_trans _ _ _ _ (step_agree _ _ _ _ _ Hstep) Hview). }
  destruct (w_faults w) as [|[e|] fs] eqn:Hf.
  - by apply Hbody.
  - intros [= <- <-]. by apply Hsame.
  - by apply Hbody.
Qed.

Lemma execute_each_frame cur stmt path base rows :
  ∀ w r w',
    tracks (cur_connection cur) path (fold_case (stmt_table stmt)) base w →
    execute_each cur stmt rows w = (r, w') →
    same_outside (cur_connection cur) path w w'
    ∧ tracks (cur_connection cur) path (fold_case (stmt_table stmt)) base w'.
Proof.
  induction rows as [|vals rows IH]; intros w r w' Htr.
  { intros [= <- <-]. split; [apply same_outside_refl | done]. }
  simpl. unfold st_bind.
  destruct (cursor_execute cur stmt vals w) as [r1 w1] eqn:Hstep.
  pose proof (cursor_execute_tracks _ _ _ _ _ _ _ _ Htr Hstep) as Htr1.
  destruct Htr as (_ & cs & Hc & Hp & _).
  pose proof (cursor_execute_same_outside _ _ _ _ _ _ _ Hc Hstep) as Hout1.
  rewrite Hp in Hout1.
  destruct r1 as [[]|e].
  - intros Hrest. destruct (IH w1 r w' Htr1 Hrest) as [Hout2 Htr2].
    split; [by apply (same_outside_trans _ _ _ w1) | done].
  - intros [= <- <-]. by split.
Qed.

Lemma cursor_executemany_frame cur stmt path base rows w r w' :
  tracks (cur_connection cur) path (fold_case (stmt_table stmt)) base w →
  cursor_executemany cur stmt rows w = (r, w') →
  same_outside (cur_connection cur) path w w'
  ∧ tracks (cur_connection cur) path (fold_case (stmt_table stmt)) base w'.
Proof.
  intros Htr. unfold cursor_executemany, st_bind, connection_state.
  destruct (w_conns w !! cur_connection cur) as [cs|] eqn:Hc.
  2: { intros [= <- <-]. split; [apply same_outside_refl | done]. }
  destruct (is_dml stmt).
  - by apply execute_each_frame.
  - intros [= <- <-]. split; [apply same_outside_refl | done].
Qed.

(** A commit changes the file of the connection and nothing else; the
    tables the transaction did not touch are as they were. *)
Lemma connection_commit_frame c path t base w r w' :
  tracks c path t base w →
  connection_commit c w = (r, w') →
  same_outside c path w w' ∧ tracks c path t base w'.
Proof.
  intros (Hcom & cs & Hc & <- & Hview).
  unfold connection_commit, st_bind, connection_state. rewrite Hc.
  destruct (c_txn cs) as [db|] eqn:Htxn.
  2: { intros [= <- <-]. split; [apply same_outside_refl|].
       split; [done|]. by exists cs. }
  rewrite engine_call_unfold.
  assert (tracks c (c_path cs) t base w) as Htr
    by (split; [done|]; by exists cs).
  assert (∀ wq, w_files wq = w_files w → w_conns wq = w_conns w →
            tracks c (c_path cs) t base wq) as Hsame.
  { intros wq Hf Hcn. split.
    - unfold committed. by rewrite Hf.
    - exists cs. rewrite Hcn. split; [done|]. split; [done|].
      unfold view, committed. by rewrite Hf. }
  assert (∀ wq, w_files wq = w_files w → w_conns wq = w_conns w →
            same_outside c (c_path cs) w wq →
            (if is_private (c_path cs) then (Ret tt, wq)
             else (Ret tt,
                   set_files (<[c_path cs := db]> (w_files wq))
                     (set_conns (<[c := set_txn None cs]> (w_conns wq)) wq)))
            = (r, w') →
            same_outside c (c_path cs) w w' ∧ tracks c (c_path cs) t base w') as Hdone.
  { intros wq Hf Hcn Hout.
    assert (agree_off t db base) as Hdb
      by (unfold view in Hview; by rewrite Htxn in Hview).
    destruct (is_private (c_path cs)) eqn:Hpriv; intros [= <- <-].
    { split; [done | by apply Hsame]. }
    split.
    - apply (same_outside_trans _ _ _ _ _ Hout).
      refine (conj _ (conj _ (conj _ (conj _ (conj _ (conj _ (conj _ _)))))));
        try done; simpl.
      + intros c' Hc'. by rewrite lookup_insert_ne.
      + intros q Hq. by rewrite lookup_insert_ne.
      + intros Hp. congruence.
    - split.
      + unfold committed. rewrite Hpriv. simpl. by rewrite lookup_insert_eq.
      + exists (set_txn None cs). simpl. rewrite lookup_insert_eq.
        split; [done|]. split; [done|].
        unfold view, committed. simpl. by rewrite Hpriv, lookup_insert_eq. }
  destruct (w_faults w) as [|[e|] fs] eqn:Hf.
  - apply (Hdone (proceeded w)); [done | done | apply same_outside_proceeded].
  - intros [= <- <-]. split; [by repeat split | by apply Hsame].
  - apply (Hdone (proceeded w)); [done | done | apply same_outside_proceeded].
Qed.

(** The block of the [with] statement of [initializeDatabase], on an open
    connection outside a transaction: up to the last step nothing changes
    but the connection and the users table of its file; the one call to
    [logging] the block makes is [logging.info], made when it returns, and
    what it returns is [True]. *)
Lemma initialize_block_frame c cs w r w' :
  w_conns w !! c = Some cs →
  c_txn cs = None →
  (let* cursor := connection_cursor c in
   _createUserTable cursor >>
   _insertSampleData cursor >>
   connection_commit c >>
   logging_info "Database initialized successfully" >>
   st_ret true) w = (r, w') →
  ∃ wm,
    same_outside c (c_path cs) w wm
    ∧ agree_off "users" (committed (c_path cs) wm) (committed (c_path cs) w)
    ∧ ((r = Ret true ∧ w' = info_logged "Database initialized successfully" wm)
       ∨ ((∃ e, r = Raise e) ∧ w' = wm)).
Proof.
  intros Hc Htxn.
  assert (tracks c (c_path cs) "users" (committed (c_path cs) w) w) as Htr.
  { split; [done|]. exists cs. split; [done|]. split; [done|].
    unfold view. by rewrite Htxn. }
  unfold st_bind at 1. unfold connection_cursor, st_bind at 1, connection_state.
  rewrite Hc. cbv beta iota. unfold st_ret at 1.
  set (cur := {| cur_connection := c |}).
  unfold st_bind at 1.
  destruct (_createUserTable cur w) as [r1 w1] eqn:Hcreate.
  pose proof (cursor_execute_same_outside cur create_users [] cs w r1 w1 Hc Hcreate)
    as Hout1.
  pose proof (cursor_execute_tracks cur create_users [] _ _ w r1 w1 Htr Hcreate)
    as Htr1.
  destruct r1 as [[]|e].
  2: { intros [= <- <-]. exists w1. split; [done|]. split; [apply Htr1|].
       right. eauto. }
  unfold st_bind at 1.
  destruct (_insertSampleData cur w1) as [r2 w2] eqn:Hseed.
  destruct (cursor_executemany_frame cur insert_user _ _ sampleUsers w1 r2 w2 Htr1 Hseed)
    as [Hout2 Htr2].
  pose proof (same_outside_trans _ _ _ _ _ Hout1 Hout2) as Hout12.
  destruct r2 as [[]|e].
  2: { intros [= <- <-]. exists w2. split; [done|]. split; [apply Htr2|].
       right. eauto. }
  unfold st_bind at 1.
  destruct (connection_commit c w2) as [r3 w3] eqn:Hcommit.
  destruct (connection_commit_frame c _ _ _ w2 r3 w3 Htr2 Hcommit) as [Hout3 Htr3].
  pose proof (same_outside_trans _ _ _ _ _ Hout12 Hout3) as Hout123.
  destruct r3 as [[]|e].
  2: { intros [= <- <-]. exists w3. split; [done|]. split; [apply Htr3|].
       right. eauto. }
  unfold st_bind, logging_info, st_ret. intros [= <- <-].
  exists w3. split; [done|]. split; [apply Htr3|]. by left.
Qed.

(** What a run of [initializeDatabase] leaves alone and what it logs, with
    no assumption on the file. The environment, the clock, the level of
    the root logger, the other connections, the other files and the tables
    other than users are as they were; at a private path every file is as
    it was. A run that returns [True] has made the one call
    [logging.info]; a run that returns [False] has appended two ERROR
    records, both with the text of one storage-engine error; a run that
    raises has raised an exception that is no storage-engine error and has
    appended nothing. *)
Lemma initializeDatabase_frame self w r w' :
  initializeDatabase self w = (r, w') →
  w_environ w' = w_environ w
  ∧ w_now w' = w_now w
  ∧ w_log_level w' = w_log_level w
  ∧ (∀ c', c' ≠ w_next_handle w → w_conns w' !! c' = w_conns w !! c')
  ∧ (w_conns w !! w_next_handle w = None → w_conns w' !! w_next_handle w = None)
  ∧ (∀ q, q ≠ dbPath self → w_files w' !! q = w_files w !! q)
  ∧ (is_private (dbPath self) = true → w_files w' = w_files w)
  ∧ agree_off "users" (committed (dbPath self) w') (committed (dbPath self) w)
  ∧ match r with
    | Ret true =>
        w_log w' = w_log (info_logged "Database initialized successfully" w)
    | Ret false =>
        ∃ e, is_sqlite3_Error e = true
             ∧ w_log w'
               = w_log w ++ [(ERROR, "Database connection error: " +:+ str_exn e);
                             (ERROR, "Database initialization failed: " +:+ str_exn e)]
    | Raise e => is_sqlite3_Error e = false ∧ w_log w' = w_log w
    end.
Proof.
  unfold initializeDatabase, try_except.
  rewrite getConnection_unfold.
  destruct (sqlite3_connect _ _ w) as [[c|e] w1] eqn:Hopen.
  2: { apply sqlite3_connect_fault in Hopen as [(_ & _ & ->) | (_ & fs & _ & ->)];
         unfold connection_error_logged, st_bind, logging_error, st_ret, error_logged;
         destruct (is_sqlite3_Error e) eqn:He; intros [= <- <-]; simpl;
         refine (conj _ (conj _ (conj _ (conj _ (conj _ (conj _ (conj _ (conj _ _))))))));
         try done.
       all: exists e; split; [done|]; by rewrite <- app_assoc. }
  pose proof (sqlite3_connect_opens _ _ _ _ _ Hopen) as Hc1.
  assert (c = w_next_handle w ∧ w_files w1 = w_files w ∧ w_now w1 = w_now w
          ∧ w_environ w1 = w_environ w ∧ w_log w1 = w_log w
          ∧ w_log_level w1 = w_log_level w
          ∧ ∀ c', c' ≠ c → w_conns w1 !! c' = w_conns w !! c')
    as (-> & Hfiles1 & Hnow1 & Henv1 & Hlog1 & Hlev1 & Hconns1).
  { rewrite sqlite3_connect_unfold in Hopen by (by eapply sqlite3_connect_fits).
    destruct (w_faults w) as [|[e'|] fs]; try discriminate;
      injection Hopen as <- <-; simpl;
      refine (conj _ (conj _ (conj _ (conj _ (conj _ (conj _ _)))))); try done;
      intros c' Hc'; by rewrite lookup_insert_ne. }
  set (c := w_next_handle w) in *.
  set (cs := ConnState (dbPath self) (connectionTimeout self) Sqlite3_Row None).
  set (w2 := (set_row_factory c Sqlite3_Row w1).2).
  assert (w_conns w2 !! c = Some cs) as Hc2.
  { subst w2. unfold set_row_factory. simpl. by rewrite lookup_alter_eq, Hc1. }
  assert (w_files w2 = w_files w ∧ w_now w2 = w_now w
          ∧ w_environ w2 = w_environ w ∧ w_log w2 = w_log w
          ∧ w_log_level w2 = w_log_level w
          ∧ ∀ c', c' ≠ c → w_conns w2 !! c' = w_conns w !! c')
    as (Hfiles2 & Hnow2 & Henv2 & Hlog2 & Hlev2 & Hconns2).
  { subst w2. unfold set_row_factory. simpl.
    refine (conj _ (conj _ (conj _ (conj _ (conj _ _))))); try done.
    intros c' Hc'. by rewrite lookup_alter_ne, Hconns1. }
  assert (committed (dbPath self) w2 = committed (dbPath self) w) as Hcom2
    by (unfold committed; by rewrite Hfiles2).
  clearbody w2. clear Hopen Hc1 Hfiles1 Hnow1 Henv1 Hlog1 Hlev1 Hconns1 w1.
  match goal with
  | |- context [st_bind (connection_cursor c) ?k w2] =>
      destruct (st_bind (connection_cursor c) k w2) as [rb w3] eqn:Hblock
  end.
  destruct (initialize_block_frame c cs w2 rb w3 Hc2 eq_refl Hblock)
    as (wm & (Henvm & Hlogm & Hlevm & Hnowm & _ & Hconnsm & Hfilesm & Hprivm)
        & Hagree & Hcases).
  simpl in Hfilesm, Hprivm, Hagree. rewrite Hcom2 in Hagree.
  assert (∀ wq, w_environ wq = w_environ wm → w_now wq = w_now wm →
            w_log_level wq = w_log_level wm →
            w_files wq = w_files wm →
            (∀ c', c' ≠ c → w_conns wq !! c' = w_conns wm !! c') →
            w_conns wq !! c = None →
            w_environ wq = w_environ w
            ∧ w_now wq = w_now w
            ∧ w_log_level wq = w_log_level w
            ∧ (∀ c', c' ≠ c → w_conns wq !! c' = w_conns w !! c')
            ∧ (w_conns w !! c = None → w_conns wq !! c = None)
            ∧ (∀ q, q ≠ dbPath self → w_files wq !! q = w_files w !! q)
            ∧ (is_private (dbPath self) = true → w_files wq = w_files w)
            ∧ agree_off "users" (committed (dbPath self) wq) (committed (dbPath self) w))
    as Hwrap.
  { intros wq Heq Hnq Hlq Hfq Hcq Hclosed.
    refine (conj _ (conj _ (conj _ (conj _ (conj _ (conj _ (conj _ _))))))).
    - by rewrite Heq, Henvm.
    - by rewrite Hnq, Hnowm.
    - by rewrite Hlq, Hlevm.
    - intros c' Hc'. by rewrite (Hcq c' Hc'), (Hconnsm c' Hc'), Hconns2.
    - done.
    - intros q Hq. by rewrite Hfq, (Hfilesm q Hq), Hfiles2.
    - intros Hp. by rewrite Hfq, (Hprivm Hp), Hfiles2.
    - unfold committed at 1. rewrite Hfq. exact Hagree. }
  destruct Hcases as [[-> ->] | [[e ->] ->]].
  - intros [= <- <-].
    destruct (info_logged_frame "Database initialized successfully" wm)
      as (Ienv & Ifiles & Iconns & _ & Inow & Ilevel & _).
    destruct (Hwrap (closed c (info_logged "Database initialized successfully" wm)))
      as (?&?&?&?&?&?&?&?).
    { simpl. by rewrite Ienv. }
    { simpl. by rewrite Inow. }
    { simpl. by rewrite Ilevel. }
    { simpl. by rewrite Ifiles. }
    { intros c' Hc'. simpl. by rewrite lookup_delete_ne, Iconns. }
    { simpl. apply lookup_delete_eq. }
    refine (conj _ (conj _ (conj _ (conj _ (conj _ (conj _ (conj _ (conj _ _))))))));
      try done.
    simpl. unfold info_logged. rewrite Hlevm, Hlev2.
    destruct (w_log_level w); simpl; by rewrite Hlogm, Hlog2.
  - unfold connection_error_logged, st_bind, logging_error, st_ret, error_logged.
    destruct (is_sqlite3_Error e) eqn:He; intros [= <- <-].
    + destruct (Hwrap (set_log
                         ((w_log wm ++ [(ERROR, "Database connection error: " +:+ str_exn e)])
                          ++ [(ERROR, "Database initialization failed: " +:+ str_exn e)])
                         (closed c wm)))
        as (?&?&?&?&?&?&?&?); try done.
      { intros c' Hc'. simpl. by rewrite lookup_delete_ne. }
      { simpl. apply lookup_delete_eq. }
      refine (conj _ (conj _ (conj _ (conj _ (conj _ (conj _ (conj _ (conj _ _))))))));
        try done.
      exists e. split; [done|]. simpl. by rewrite <- app_assoc, Hlogm, Hlog2.
    + destruct (Hwrap (closed c wm)) as (?&?&?&?&?&?&?&?); try done.
      { intros c' Hc'. simpl. by rewrite lookup_delete_ne. }
      { simpl. apply lookup_delete_eq. }
      refine (conj _ (conj _ (conj _ (conj _ (conj _ (conj _ (conj _ (conj _ _))))))));
        try done.
      split; [done|]. simpl. by rewrite Hlogm, Hlog2.
Qed.

End frame.

(* ===================================================================== *)
(** ** Further properties of [initializeDatabase] and [getConnection] *)
(* ===================================================================== *)

Section further.
Import Sqlite.

(** X1. The log records of a run. A run that returns [True] has called
    [logging.info] once: the record INFO "Database initialized
    successfully" is appended when the root logger is at INFO, and nothing
    is appended when it is at a higher level, as it is unless the importing
    program has configured logging (the module never does). A run that
    returns [False] appends exactly two ERROR records with the text of the
    same storage-engine error: first "Database connection error: ..." from
    [getConnection], whichever step failed, then "Database initialization
    failed: ...". A run that raises appends nothing, and what it raises is
    no storage-engine error. No run changes the level of the logger. *)
Theorem initializeDatabase_log_records self w r w' :
  initializeDatabase self w = (r, w') →
  w_log_level w' = w_log_level w
  ∧ match r with
    | Ret true =>
        w_log w'
        = match w_log_level w with
          | INFO => w_log w ++ [(INFO, "Database initialized successfully")]
          | WARNING | ERROR => w_log w
          end
    | Ret false =>
        ∃ e, is_sqlite3_Error e = true
             ∧ w_log w'
               = w_log w ++ [(ERROR, "Database connection error: " +:+ str_exn e);
                             (ERROR, "Database initialization failed: " +:+ str_exn e)]
    | Raise e => is_sqlite3_Error e = false ∧ w_log w' = w_log w
    end.
Proof.
  intros Hrun.
  destruct (initializeDatabase_frame self w r w' Hrun)
    as (_&_&Hlevel&_&_&_&_&_&Hlog).
  split; [done|]. destruct r as [[|]|e]; try done.
  rewrite Hlog. unfold info_logged. by destruct (w_log_level w).
Qed.

Lemma initializeDatabase_log_records_witness :
  w_log (initializeDatabase default_self shop_world).2
  = [(INFO, "started"); (INFO, "Database initialized successfully")]
  ∧ w_log (initializeDatabase default_self eve_world).2 = [].
Proof.
  split.
  - apply (proj2 (initializeDatabase_log_records default_self shop_world (Ret true)
                    (initializeDatabase default_self shop_world).2
                    ltac:(vm_compute; reflexivity))).
  - apply (proj2 (initializeDatabase_log_records default_self eve_world (Ret true)
                    (initializeDatabase default_self eve_world).2
                    ltac:(vm_compute; reflexivity))).
Defined.

(** X2. A run leaves no connection behind. When the next handle is not in
    use (as it is in every world the engine itself has built), the open
    connections after [initializeDatabase] are exactly those before it,
    whether it returned [True], returned [False] or raised. *)
Theorem initializeDatabase_leaves_no_connection self w r w' :
  w_conns w !! w_next_handle w = None →
  initializeDatabase self w = (r, w') →
  w_conns w' = w_conns w.
Proof.
  intros Hfresh Hrun.
  destruct (initializeDatabase_frame self w r w' Hrun) as (_&_&_&Hothers&Hown&_).
  apply map_eq. intros c.
  destruct (decide (c = w_next_handle w)) as [->|Hc].
  - by rewrite (Hown Hfresh), Hfresh.
  - by apply Hothers.
Qed.

Lemma initializeDatabase_leaves_no_connection_witness :
  w_conns (initializeDatabase default_self busy_world).2 = w_conns busy_world.
Proof.
  apply (initializeDatabase_leaves_no_connection default_self busy_world
           (initializeDatabase default_self busy_world).1).
  - vm_compute; reflexivity.
  - vm_compute; reflexivity.
Defined.



(** X4. Only storage-engine errors are turned into [False]. When a step of
    the sequence raises an exception that is no [sqlite3.Error],
    [initializeDatabase] raises that exception to its caller, with nothing
    logged. *)
Theorem initializeDatabase_lets_other_exceptions_through self w e ws :
  bootstrap_sequence self w = (Raise e, ws) →
  is_sqlite3_Error e = false →
  ∃ w', initializeDatabase self w = (Raise e, w') ∧ w_log w' = w_log w.
Proof.
  intros Hseq He.
  pose proof (initializeDatabase_by_sequence self w) as Hby.
  rewrite Hseq, He in Hby. destruct Hby as [w' Hrun].
  exists w'. split; [done|].
  by destruct (initializeDatabase_frame self w _ w' Hrun)
    as (_&_&_&_&_&_&_&_&_&Hlog).
Qed.

Lemma initializeDatabase_lets_other_exceptions_through_witness :
  ∃ w', initializeDatabase default_self
          (start_world ∅ "2026-01-01 00:00:00" [None; Some keyboard_interrupt])
        = (Raise keyboard_interrupt, w')
        ∧ w_log w' = [].
Proof.
  apply (initializeDatabase_lets_other_exceptions_through default_self
           (start_world ∅ "2026-01-01 00:00:00" [None; Some keyboard_interrupt])
           keyboard_interrupt
           (bootstrap_sequence default_self
              (start_world ∅ "2026-01-01 00:00:00" [None; Some keyboard_interrupt])).2).
  - vm_compute; reflexivity.
  - reflexivity.
Defined.

(** X5. [getConnection] logs the errors of the block, not only those of the
    open call. The [yield] stands inside the [try], so a storage-engine
    error raised by the block of the [with] statement reaches the [except]
    clause: it is logged as "Database connection error: ..." and raised
    again. An exception of the block that is no storage-engine error is
    raised again with nothing logged. In both cases the connection is
    closed. *)
Theorem getConnection_logs_block_error {A} self (body : Connection → M A)
    w c w1 e wb r w' :
  sqlite3_connect (dbPath self) (connectionTimeout self) w = (Ret c, w1) →
  body c (set_row_factory c Sqlite3_Row w1).2 = (Raise e, wb) →
  getConnection self body w = (r, w') →
  r = Raise e
  ∧ w_conns w' !! c = None
  ∧ w_log w'
    = if is_sqlite3_Error e
      then w_log wb ++ [(ERROR, "Database connection error: " +:+ str_exn e)]
      else w_log wb.
Proof.
  intros Hopen Hbody. rewrite getConnection_unfold, Hopen, Hbody.
  intros [= <- <-]. split; [done|]. split.
  - simpl. apply lookup_delete_eq.
  - unfold connection_error_logged. by destruct (is_sqlite3_Error e).
Qed.

Lemma getConnection_logs_block_error_witness :
  w_log (getConnection default_self bad_query_block
           (start_world ∅ "2026-01-01 00:00:00" [])).2
  = [(ERROR, "Database connection error: no such table: orders")].
Proof.
  refine (proj2 (proj2
            (getConnection_logs_block_error default_self bad_query_block
               (start_world ∅ "2026-01-01 00:00:00" []) 0%nat
               (sqlite3_connect "users.db" 30
                  (start_world ∅ "2026-01-01 00:00:00" [])).2
               (Sqlite3Error Sqlite_OperationalError "no such table: orders")
               (set_row_factory 0%nat Sqlite3_Row
                  (sqlite3_connect "users.db" 30
                     (start_world ∅ "2026-01-01 00:00:00" [])).2).2
               (getConnection default_self bad_query_block
                  (start_world ∅ "2026-01-01 00:00:00" [])).1
               (getConnection default_self bad_query_block
                  (start_world ∅ "2026-01-01 00:00:00" [])).2
               _ _ _)));
    vm_compute; reflexivity.
Defined.

(** X6. The connection the block is given. Whatever block runs, it runs on
    a connection that is open, was opened on [dbPath] with
    [connectionTimeout], is outside a transaction and has [sqlite3.Row] as
    its row factory; when the next handle was not in use, no connection
    that was open before has been touched. *)
Theorem getConnection_yields_row_connection self w cs w' :
  getConnection self connection_state w = (Ret cs, w') →
  cs = ConnState (dbPath self) (connectionTimeout self) Sqlite3_Row None
  ∧ (w_conns w !! w_next_handle w = None → w_conns w' = w_conns w).
Proof.
  rewrite getConnection_unfold.
  destruct (sqlite3_connect _ _ w) as [[c|e] w1] eqn:Hopen; [|by intros [=]].
  pose proof (sqlite3_connect_opens _ _ _ _ _ Hopen) as Hc1.
  assert (c = w_next_handle w ∧ ∀ c', c' ≠ c → w_conns w1 !! c' = w_conns w !! c')
    as [-> Hothers].
  { rewrite sqlite3_connect_unfold in Hopen by (by eapply sqlite3_connect_fits).
    destruct (w_faults w) as [|[e'|] fs]; try discriminate;
      injection Hopen as <- <-; (split; [done|]);
      intros c' Hc'; simpl; by rewrite lookup_insert_ne. }
  unfold set_row_factory, connection_state. simpl.
  rewrite lookup_alter_eq, Hc1. simpl. intros [= <- <-]. split; [done|].
  intros Hfresh. apply map_eq. intros c'. simpl.
  destruct (decide (c' = w_next_handle w)) as [->|Hc'].
  - by rewrite lookup_delete_eq, Hfresh.
  - by rewrite lookup_delete_ne, lookup_alter_ne, Hothers.
Qed.

Lemma getConnection_yields_row_connection_witness :
  (getConnection default_self connection_state busy_world).1
  = Ret (ConnState "users.db" 30 Sqlite3_Row None)
  ∧ w_conns (getConnection default_self connection_state busy_world).2
    = w_conns busy_world.
Proof.
  split; [vm_compute; reflexivity|].
  refine (proj2
            (getConnection_yields_row_connection default_self busy_world
               (ConnState "users.db" 30 Sqlite3_Row None)
               (getConnection default_self connection_state busy_world).2 _) _);
    vm_compute; reflexivity.
Defined.

(** X7. [initializeDatabase] does return [True] in the good case: the
    timeout fits a double, [dbPath] names a file (it is neither ":memory:"
    nor empty), the users table is absent or as declared, no fault is
    pending and no open connection holds the write lock of the file. No
    fault is pending afterwards either, so the same holds of the next
    call. *)
Theorem initializeDatabase_succeeds self w :
  timeout_fits (connectionTimeout self) = true →
  is_private (dbPath self) = false →
  users_declared (committed (dbPath self) w) →
  quiet w →
  write_locked_by_other (dbPath self) (w_next_handle w) (w_conns w) = false →
  ∃ w', initializeDatabase self w = (Ret true, w') ∧ quiet w'.
Proof. apply initializeDatabase_quiet. Qed.

Lemma initializeDatabase_succeeds_witness :
  ∃ w', initializeDatabase default_self eve_world = (Ret true, w') ∧ quiet w'.
Proof.
  apply (initializeDatabase_succeeds default_self eve_world).
  - reflexivity.
  - reflexivity.
  - intros t Ht. vm_compute in Ht. by injection Ht as <-.
  - apply Forall_nil.
  - vm_compute; reflexivity.
Defined.

(** [initializeDatabase] when the open call proceeds: the block runs from
    [block_start], then the connection is closed and the outcome of the
    block is handled. *)
Lemma initializeDatabase_unfold self w :
  timeout_fits (connectionTimeout self) = true →
  proceeds (w_faults w) →
  initializeDatabase self w =
  match initialize_block (w_next_handle w) (block_start self w) with
  | (Ret b, w3) => (Ret b, closed (w_next_handle w) w3)
  | (Raise e, w3) =>
      if is_sqlite3_Error e then
        (Ret false,
         error_logged ("Database initialization failed: " +:+ str_exn e)
           (closed (w_next_handle w)
              (error_logged ("Database connection error: " +:+ str_exn e) w3)))
      else (Raise e, closed (w_next_handle w) w3)
  end.
Proof.
  intros Hfit Hp. unfold initializeDatabase, try_except, block_start.
  rewrite getConnection_unfold, sqlite3_connect_unfold by done.
  destruct (w_faults w) as [|[e|] fs] eqn:Hf; [| by destruct (Hp e) |].
  all: cbv zeta; cbn [snd]; unfold initialize_block;
    match goal with
    | |- context [st_bind (connection_cursor ?c) ?k ?w2] =>
        destruct (st_bind (connection_cursor c) k w2) as [[b|e] w3]
    end; [done|];
    unfold connection_error_logged, st_bind, logging_error, st_ret, error_logged;
    by destruct (is_sqlite3_Error e).
Qed.

Lemma block_start_facts self w :
  timeout_fits (connectionTimeout self) = true →
  proceeds (w_faults w) →
  w_conns (block_start self w) !! w_next_handle w
  = Some (ConnState (dbPath self) (connectionTimeout self) Sqlite3_Row None)
  ∧ (∀ c', c' ≠ w_next_handle w →
       w_conns (block_start self w) !! c' = w_conns w !! c')
  ∧ w_files (block_start self w) = w_files w
  ∧ w_log (block_start self w) = w_log w
  ∧ w_now (block_start self w) = w_now w
  ∧ (quiet w → quiet (block_start self w)).
Proof.
  intros Hfit Hp. unfold block_start, set_row_factory.
  rewrite sqlite3_connect_unfold by done.
  destruct (w_faults w) as [|[e|] fs] eqn:Hf; [| by destruct (Hp e) |].
  all: simpl; rewrite lookup_alter_eq, lookup_insert_eq; simpl;
    refine (conj _ (conj _ (conj _ (conj _ (conj _ _))))); try done;
    [ intros c' Hc'; by rewrite lookup_alter_ne, lookup_insert_ne | ].
  - intros _. apply Forall_nil.
  - unfold quiet. rewrite Hf. simpl. by inversion 1.
Qed.





(** [initializeDatabase] when the open call fails. *)
Lemma initializeDatabase_open_fault self w e fs :
  timeout_fits (connectionTimeout self) = true →
  w_faults w = Some e :: fs →
  initializeDatabase self w =
  if is_sqlite3_Error e then
    (Ret false,
     error_logged ("Database initialization failed: " +:+ str_exn e)
       (error_logged ("Database connection error: " +:+ str_exn e) (set_faults fs w)))
  else (Raise e, set_faults fs w).
Proof.
  intros Hfit Hf. unfold initializeDatabase, try_except.
  rewrite getConnection_unfold, sqlite3_connect_unfold, Hf by done.
  unfold connection_error_logged, st_bind, logging_error, st_ret, error_logged.
  by destruct (is_sqlite3_Error e).
Qed.

(** [initializeDatabase] with a timeout that fits no double: the
    [OverflowError] of the open call is no storage-engine error and goes
    through both handlers. *)
Lemma initializeDatabase_overflow self w :
  timeout_fits (connectionTimeout self) = false →
  initializeDatabase self w = (Raise overflow_error, w).
Proof.
  intros Hfit. unfold initializeDatabase, try_except.
  by rewrite getConnection_unfold, sqlite3_connect_overflow.
Qed.

(** The world either proceeds at the open call or fails there. *)
Lemma proceeds_or_fault w :
  proceeds (w_faults w) ∨ ∃ e fs, w_faults w = Some e :: fs.
Proof.
  destruct (w_faults w) as [|[e|] fs]; [left|right|left]; eauto; by intros e'.
Qed.

(** When the block raises, nothing has been written to the file, the
    creation of the empty users table apart. *)
Lemma initialize_block_failure c cs w e w' :
  w_conns w !! c = Some cs →
  c_txn cs = None →
  is_private (c_path cs) = false →
  users_declared (committed (c_path cs) w) →
  initialize_block c w = (Raise e, w') →
  w_files w' = w_files w
  ∨ (committed (c_path cs) w !! "users" = None
     ∧ w_files w'
       = <[c_path cs := <["users" := Table users_columns ∅]>
                          (committed (c_path cs) w)]> (w_files w)).
Proof.
  intros Hc Htxn Hpriv Hdecl. unfold initialize_block.
  unfold st_bind at 1. unfold connection_cursor, st_bind at 1, connection_state.
  rewrite Hc. cbv beta iota. unfold st_ret at 1.
  set (cur := {| cur_connection := c |}).
  unfold st_bind at 1.
  destruct (_createUserTable cur w) as [r1 w1] eqn:Hcreate.
  destruct (createUserTable_cases cur cs w r1 w1 Hc Htxn Hpriv Hcreate)
    as (Hconns1 & _ & Hcases).
  destruct (createUserTable_effect cur cs w r1 w1 Hc Htxn Hpriv Hdecl Hcreate)
    as (_ & _ & _ & _ & _ & Htable1).
  assert (w_files w1 = w_files w
          ∨ (committed (c_path cs) w !! "users" = None
             ∧ w_files w1
               = <[c_path cs := <["users" := Table users_columns ∅]>
                                  (committed (c_path cs) w)]> (w_files w))) as Hfiles1.
  { destruct Hcases as [[Hsame _] | (_ & Hnone & Hnew)]; [by left | by right]. }
  destruct r1 as [[]|e1]; [|by intros [= <- <-]].
  specialize (Htable1 eq_refl).
  assert (w_conns w1 !! cur_connection cur = Some cs) as Hc1 by (by rewrite Hconns1).
  assert (view cs w1 !! "users"
          = Some (Table users_columns (users_rows (committed (c_path cs) w)))) as Hview1
    by (unfold view; by rewrite Htxn).
  unfold st_bind at 1.
  destruct (_insertSampleData cur w1) as [r2 w2] eqn:Hseed.
  destruct (insertSampleData_effect cur cs w1 _ r2 w2 Hc1 Hview1 Hseed)
    as (Hfiles2 & _ & _ & Hdone2 & _).
  destruct r2 as [[]|e2]; [|intros [= <- <-]; by rewrite Hfiles2].
  specialize (Hdone2 eq_refl). simpl in Hdone2.
  unfold st_bind at 1.
  rewrite (connection_commit_unfold c _ _ w2 Hdone2 eq_refl Hpriv).
  destruct (w_faults w2) as [|[e3|] fs]; unfold st_bind, logging_info, st_ret;
    intros [= <- <-]. simpl. by rewrite Hfiles2.
Qed.

(** X9. A run that fails rolls back. Over a users table that is absent or
    as declared, when [initializeDatabase] does not return [True] the rows
    of the users table are those from before the run: no seed row has been
    written, not even in part. The only trace the run may leave in the file
    is the users table itself, declared and empty, where there was none:
    CREATE TABLE runs outside the transaction, so it stays when a later step
    fails. *)
Theorem initializeDatabase_failure_rolls_back self w r w' :
  users_declared (committed (dbPath self) w) →
  initializeDatabase self w = (r, w') →
  r ≠ Ret true →
  users_rows (committed (dbPath self) w') = users_rows (committed (dbPath self) w)
  ∧ (w_files w' = w_files w
     ∨ (committed (dbPath self) w !! "users" = None
        ∧ w_files w'
          = <[dbPath self := <["users" := Table users_columns ∅]>
                               (committed (dbPath self) w)]> (w_files w))).
Proof.
  intros Hdecl Hrun Hr.
  destruct (is_private (dbPath self)) eqn:Hpriv.
  { destruct (initializeDatabase_frame self w r w' Hrun)
      as (_ & _ & _ & _ & _ & _ & Hsame & _).
    split; [by rewrite !committed_private | left; by apply Hsame]. }
  destruct (initializeDatabase_effect self w r w' Hpriv Hdecl Hrun)
    as (_&_&_&_&_&Hfail).
  split; [by apply Hfail|].
  destruct (timeout_fits (connectionTimeout self)) eqn:Hfit.
  2: { rewrite (initializeDatabase_overflow self w Hfit) in Hrun.
       injection Hrun as <- <-. by left. }
  destruct (proceeds_or_fault w) as [Hp | (e & fs & Hf)].
  2: { rewrite (initializeDatabase_open_fault self w e fs Hfit Hf) in Hrun.
       destruct (is_sqlite3_Error e); injection Hrun as <- <-; by left. }
  destruct (block_start_facts self w Hfit Hp) as (Hc & _ & Hfiles & _).
  rewrite (initializeDatabase_unfold self w Hfit Hp) in Hrun.
  destruct (initialize_block (w_next_handle w) (block_start self w))
    as [[b|e] w3] eqn:Hblock.
  { (* the block only ever returns [True] *)
    destruct (initialize_block_frame _ _ _ _ _ Hc eq_refl Hblock)
      as (wm & _ & _ & [[Hb _] | [[e [=]] _]]).
    injection Hb as ->. injection Hrun as <- <-. done. }
  assert (users_declared
            (committed (c_path (ConnState (dbPath self) (connectionTimeout self)
                                  Sqlite3_Row None)) (block_start self w))) as Hdecl2
    by (simpl; unfold committed; by rewrite Hfiles).
  pose proof (initialize_block_failure _ _ _ _ _ Hc eq_refl Hpriv Hdecl2 Hblock)
    as Hcases.
  cbn [c_path] in Hcases.
  assert (committed (dbPath self) (block_start self w) = committed (dbPath self) w)
    as Hcom by (unfold committed; by rewrite Hfiles).
  rewrite Hcom, Hfiles in Hcases.
  destruct (is_sqlite3_Error e); injection Hrun as <- <-; exact Hcases.
Qed.

Lemma initializeDatabase_failure_rolls_back_witness :
  let w := start_world ∅ "2026-01-01 00:00:00"
             [None; None; None; None; None; Some disk_full] in
  (initializeDatabase default_self w).1 = Ret false
  ∧ users_rows (committed "users.db" (initializeDatabase default_self w).2) = ∅
  ∧ committed "users.db" (initializeDatabase default_self w).2 !! "users"
    = Some (Table users_columns ∅).
Proof.
  intros w. split; [vm_compute; reflexivity|]. split.
  - refine (proj1 (initializeDatabase_failure_rolls_back default_self w
                     (initializeDatabase default_self w).1
                     (initializeDatabase default_self w).2 _ _ _)).
    + intros t Ht. vm_compute in Ht. discriminate.
    + vm_compute; reflexivity.
    + vm_compute. discriminate.
  - vm_compute; reflexivity.
Defined.



(** One run, row by row, under the invariant that no row outside ids 1 to 5
    carries a seed email: the invariant is kept, and every row is kept. *)
Lemma run_keeps_rows self w r w' :
  is_private (dbPath self) = false →
  users_declared (committed (dbPath self) w) →
  seed_emails_free (users_rows (committed (dbPath self) w)) →
  initializeDatabase self w = (r, w') →
  users_declared (committed (dbPath self) w')
  ∧ seed_emails_free (users_rows (committed (dbPath self) w'))
  ∧ ∀ k row,
      users_rows (committed (dbPath self) w) !! k = Some row →
      is_Some (users_rows (committed (dbPath self) w') !! k)
      ∧ (¬ (1 ≤ k ≤ 5)%Z → users_rows (committed (dbPath self) w') !! k = Some row).
Proof.
  intros Hpriv Hdecl Hfree Hrun.
  destruct (initializeDatabase_effect self w r w' Hpriv Hdecl Hrun)
    as (_ & _ & _ & Hdecl' & Hdone & Hfail).
  split; [done|].
  destruct (returned_true_or_not r) as [Hr|Hr].
  2: { rewrite (Hfail Hr). split; [done|]. intros k row Hrow. rewrite Hrow. eauto. }
  assert (users_rows (committed (dbPath self) w')
          = seeded (w_now w) (users_rows (committed (dbPath self) w))) as ->
    by (unfold users_rows at 1; by rewrite (Hdone Hr)).
  assert (∀ k, ¬ (1 ≤ k ≤ 5)%Z → seed_with_id k = None) as Hnone.
  { intros k Hk. destruct (seed_with_id k) eqn:Hs; [|done].
    destruct Hk. apply seed_with_id_range. by rewrite Hs. }
  split.
  - intros k row. rewrite seeded_lookup. intros Hrow Hk. rewrite (Hnone k Hk) in Hrow.
    destruct (users_rows (committed (dbPath self) w) !! k) as [row0|] eqn:Hrow0;
      [|done].
    simpl in Hrow. destruct (decide (has_seed_email row0)); [done|].
    by injection Hrow as <-.
  - intros k row Hrow. rewrite seeded_lookup.
    destruct (decide (1 ≤ k ≤ 5)%Z) as [Hk|Hk].
    + apply seed_with_id_range in Hk as [vals Hvals]. rewrite Hvals.
      split; [eauto|]. intros Hk'. destruct Hk'. apply seed_with_id_range. eauto.
    + rewrite (Hnone k Hk), Hrow. simpl.
      rewrite decide_False by (by apply (Hfree k row)). eauto.
Qed.

(** After a run that returned [True], no row outside ids 1 to 5 carries a
    seed email. *)
Lemma seed_emails_free_after_success self w w' :
  is_private (dbPath self) = false →
  users_declared (committed (dbPath self) w) →
  initializeDatabase self w = (Ret true, w') →
  users_declared (committed (dbPath self) w')
  ∧ seed_emails_free (users_rows (committed (dbPath self) w')).
Proof.
  intros Hpriv Hdecl Hrun.
  destruct (initializeDatabase_effect self w _ w' Hpriv Hdecl Hrun)
    as (_ & _ & _ & Hdecl' & Hdone & _).
  split; [done|].
  unfold users_rows at 1. rewrite (Hdone eq_refl). simpl.
  intros k row. rewrite seeded_lookup. intros Hrow Hk.
  destruct (seed_with_id k) eqn:Hs.
  { destruct Hk. apply seed_with_id_range. by rewrite Hs. }
  destruct (users_rows (committed (dbPath self) w) !! k) as [row0|]; [|done].
  simpl in Hrow. destruct (decide (has_seed_email row0)); [done|].
  by injection Hrow as <-.
Qed.

Lemma initialize_times_keeps_rows self calls :
  is_private (dbPath self) = false →
  ∀ w rs w',
    users_declared (committed (dbPath self) w) →
    seed_emails_free (users_rows (committed (dbPath self) w)) →
    initialize_times self calls w = (rs, w') →
    ∀ k row,
      users_rows (committed (dbPath self) w) !! k = Some row →
      is_Some (users_rows (committed (dbPath self) w') !! k)
      ∧ (¬ (1 ≤ k ≤ 5)%Z → users_rows (committed (dbPath self) w') !! k = Some row).
Proof.
  intros Hpriv.
  induction calls as [|s calls IH]; intros w rs w' Hdecl Hfree Hrun k row Hrow.
  { injection Hrun as <- <-. rewrite Hrow. eauto. }
  simpl in Hrun.
  destruct (initializeDatabase self (at_surroundings s w)) as [r w1] eqn:Hcall.
  destruct (initialize_times self calls w1) as [rs1 w2] eqn:Hrest.
  injection Hrun as <- <-.
  destruct (run_keeps_rows self (at_surroundings s w) r w1 Hpriv Hdecl Hfree Hcall)
    as (Hdecl1 & Hfree1 & Hkeep1).
  destruct (Hkeep1 k row Hrow) as [[row1 Hrow1] Hsame1].
  destruct (IH w1 rs1 w2 Hdecl1 Hfree1 Hrest k row1 Hrow1) as [Hsome2 Hsame2].
  split; [done|]. intros Hk.
  rewrite (Hsame1 Hk) in Hrow1. injection Hrow1 as <-. by apply Hsame2.
Qed.

(** X11. Rows are deleted by the first successful run at most. Once
    [initializeDatabase] has returned [True], any number of later calls,
    successful or not, delete nothing: every row the table holds after that
    first success is still there after the later calls, and the rows with
    ids outside 1 to 5 are there unchanged. *)
Theorem later_runs_delete_nothing self w0 w1 calls rs w2 k row :
  users_declared (committed (dbPath self) w0) →
  initializeDatabase self w0 = (Ret true, w1) →
  initialize_times self calls w1 = (rs, w2) →
  users_rows (committed (dbPath self) w1) !! k = Some row →
  is_Some (users_rows (committed (dbPath self) w2) !! k)
  ∧ (¬ (1 ≤ k ≤ 5)%Z → users_rows (committed (dbPath self) w2) !! k = Some row).
Proof.
  intros Hdecl Hfirst Hlater Hrow.
  pose proof (committed_row_on_file _ _ _ _ Hrow) as Hpriv.
  destruct (seed_emails_free_after_success self w0 w1 Hpriv Hdecl Hfirst)
    as [Hdecl1 Hfree1].
  by apply (initialize_times_keeps_rows self calls Hpriv w1 rs w2 Hdecl1 Hfree1 Hlater).
Qed.

Lemma later_runs_delete_nothing_witness :
  let first := (initializeDatabase default_self guest_world).2 in
  let calls := [("2026-01-02 00:00:00", []);
                ("2026-01-03 00:00:00", [None; None; Some disk_full])] in
  users_rows (committed "users.db" first) !! 6 = None
  ∧ users_rows (committed "users.db" (initialize_times default_self calls first).2) !! 9
    = Some guest_row.
Proof.
  intros first calls. split; [vm_compute; reflexivity|].
  refine (proj2 (later_runs_delete_nothing default_self guest_world first calls
                   (initialize_times default_self calls first).1
                   (initialize_times default_self calls first).2
                   9 guest_row _ _ _ _) _).
  - intros t Ht. vm_compute in Ht. by injection Ht as <-.
  - vm_compute; reflexivity.
  - vm_compute; reflexivity.
  - vm_compute; reflexivity.
  - lia.
Defined.

(** The email a seed row is stored with is one of the seed emails. *)
Lemma stored_seed_email now k vals :
  seed_with_id k = Some vals →
  ∃ v, (vals ++ [VText now]) !! 2%nat = Some v ∧ v ∈ seed_emails ∧ v ≠ VNull
       ∧ ∀ k' vals', seed_with_id k' = Some vals' →
                     (vals' ++ [VText now]) !! 2%nat = Some v → k' = k.
Proof.
  intros Hs.
  assert (1 ≤ k ≤ 5)%Z as Hk by (apply seed_with_id_range; by rewrite Hs).
  assert (∀ k' vals', seed_with_id k' = Some vals' →
            k' = 1 ∨ k' = 2 ∨ k' = 3 ∨ k' = 4 ∨ k' = 5) as Hrange.
  { intros k' vals' Hs'.
    assert (1 ≤ k' ≤ 5)%Z by (apply seed_with_id_range; by rewrite Hs'). lia. }
  assert (k = 1 ∨ k = 2 ∨ k = 3 ∨ k = 4 ∨ k = 5) as Hcases by lia.
  destruct Hcases as [->|[->|[->|[->| ->]]]];
    vm_compute in Hs; injection Hs as <-;
    (eexists; split; [reflexivity|]; split;
     [apply list_elem_of_In; vm_compute; auto 10|];
     split; [done|]);
    intros k' vals' Hs' Hv;
    destruct (Hrange k' vals' Hs') as [->|[->|[->|[->| ->]]]];
    vm_compute in Hs'; injection Hs' as <-; simpl in Hv; congruence.
Qed.

(** X12. The UNIQUE constraint on [email] survives every run. Over a users
    table that is absent or as declared, when no two rows carry the same
    email before a run of [initializeDatabase], no two rows carry the same
    email after it, whatever the outcome of the run. *)
Theorem initializeDatabase_keeps_emails_unique self w r w' :
  users_declared (committed (dbPath self) w) →
  emails_unique (users_rows (committed (dbPath self) w)) →
  initializeDatabase self w = (r, w') →
  emails_unique (users_rows (committed (dbPath self) w')).
Proof.
  intros Hdecl Huniq Hrun.
  destruct (is_private (dbPath self)) eqn:Hpriv.
  { rewrite committed_private by done. intros k1 k2 r1 r2 v H1.
    unfold users_rows in H1. by rewrite !lookup_empty in H1. }
  destruct (initializeDatabase_effect self w r w' Hpriv Hdecl Hrun)
    as (_ & _ & _ & _ & Hdone & Hfail).
  destruct (returned_true_or_not r) as [Hr|Hr]; [|by rewrite (Hfail Hr)].
  assert (users_rows (committed (dbPath self) w')
          = seeded (w_now w) (users_rows (committed (dbPath self) w))) as ->
    by (unfold users_rows at 1; by rewrite (Hdone Hr)).
  set (rows := users_rows (committed (dbPath self) w)) in *.
  assert (∀ k row, seed_with_id k = None →
            seeded (w_now w) rows !! k = Some row →
            rows !! k = Some row ∧ ¬ has_seed_email row) as Hold.
  { intros k row Hs. rewrite seeded_lookup, Hs.
    destruct (rows !! k) as [row0|]; [|done]. simpl.
    destruct (decide (has_seed_email row0)); [done|]. by intros [= <-]. }
  assert (∀ k vals row, seed_with_id k = Some vals →
            seeded (w_now w) rows !! k = Some row →
            row = vals ++ [VText (w_now w)]) as Hnew.
  { intros k vals row Hs. rewrite seeded_lookup, Hs. by intros [= <-]. }
  intros k1 k2 r1 r2 v H1 H2 E1 E2 Hv.
  destruct (seed_with_id k1) as [vals1|] eqn:Hs1;
    destruct (seed_with_id k2) as [vals2|] eqn:Hs2.
  - rewrite (Hnew _ _ _ Hs1 H1) in E1. rewrite (Hnew _ _ _ Hs2 H2) in E2.
    destruct (stored_seed_email (w_now w) k1 vals1 Hs1) as (v1 & Ev1 & _ & _ & Hinj).
    rewrite E1 in Ev1. injection Ev1 as <-. symmetry. by apply (Hinj k2 vals2).
  - rewrite (Hnew _ _ _ Hs1 H1) in E1.
    destruct (stored_seed_email (w_now w) k1 vals1 Hs1) as (v1 & Ev1 & Hin & _).
    rewrite E1 in Ev1. injection Ev1 as <-.
    destruct (Hold _ _ Hs2 H2) as [_ Hno]. destruct Hno. by exists v.
  - rewrite (Hnew _ _ _ Hs2 H2) in E2.
    destruct (stored_seed_email (w_now w) k2 vals2 Hs2) as (v2 & Ev2 & Hin & _).
    rewrite E2 in Ev2. injection Ev2 as <-.
    destruct (Hold _ _ Hs1 H1) as [_ Hno]. destruct Hno. by exists v.
  - destruct (Hold _ _ Hs1 H1) as [H1' _]. destruct (Hold _ _ Hs2 H2) as [H2' _].
    by apply (Huniq k1 k2 r1 r2 v).
Qed.

Lemma emails_unique_guest :
  emails_unique (users_rows (committed "users.db" guest_world)).
Proof.
  intros k1 k2 r1 r2 v.
  change (users_rows (committed "users.db" guest_world))
    with ({[ 6 := eve_row; 9 := guest_row ]} : gmap Z (list value)).
  intros H1 H2 E1 E2 _.
  assert (∀ k r, ({[ 6 := eve_row; 9 := guest_row ]} : gmap Z (list value)) !! k = Some r →
            (k = 6 ∧ r = eve_row) ∨ (k = 9 ∧ r = guest_row)) as Hcases.
  { intros k r. rewrite lookup_insert. case_decide as H6; [intros [= <-]; by left|].
    rewrite lookup_singleton. case_decide as H9; [intros [= <-]; by right | done]. }
  destruct (Hcases _ _ H1) as [[-> ->] | [-> ->]];
    destruct (Hcases _ _ H2) as [[-> ->] | [-> ->]];
    simpl in E1, E2; congruence.
Qed.

Lemma initializeDatabase_keeps_emails_unique_witness :
  emails_unique
    (users_rows (committed "users.db" (initializeDatabase default_self guest_world).2)).
Proof.
  apply (initializeDatabase_keeps_emails_unique default_self guest_world
           (initializeDatabase default_self guest_world).1).
  - intros t Ht. vm_compute in Ht. by injection Ht as <-.
  - exact emails_unique_guest.
  - vm_compute; reflexivity.
Defined.

Lemma execute_each_seeds_raise cur l :
  (∀ v, v ∈ l → v ∈ sampleUsers) →
  ∀ w cs rows e w',
    w_conns w !! cur_connection cur = Some cs →
    view cs w !! "users" = Some (Table users_columns rows) →
    execute_each cur insert_user l w = (Raise e, w') →
    Some e ∈ w_faults w ∨ e = database_is_locked.
Proof.
  induction l as [|v l IH]; intros Hl w cs rows e w' Hc Hview Hrun; [done|].
  simpl in Hrun. unfold st_bind in Hrun.
  rewrite (cursor_execute_seed cur cs w rows v) in Hrun
    by (done || apply Hl; left).
  destruct (w_faults w) as [|[e0|] fs] eqn:Hf.
  2: { injection Hrun as <- <-. left. apply list_elem_of_here. }
  all: destruct (bool_decide (c_txn cs = None)
                 && write_locked_by_other (c_path cs) (cur_connection cur) (w_conns w));
    [ injection Hrun as <- <-; by right | ].
  all: match type of Hrun with execute_each _ _ _ ?x = _ => set (w1 := x) in * end;
    set (rows1 := upsert_seed (w_now w) rows v) in *;
    set (cs1 := set_txn (Some (<["users" := Table users_columns rows1]> (view cs w))) cs)
      in *;
    assert (w_conns w1 !! cur_connection cur = Some cs1) as Hc1
      by (subst w1; simpl; apply lookup_insert_eq);
    assert (view cs1 w1 !! "users" = Some (Table users_columns rows1)) as Hview1
      by (subst cs1; unfold view; simpl; apply lookup_insert_eq);
    destruct (IH (λ v' Hv', Hl v' (list_elem_of_further _ _ _ Hv'))
                 w1 cs1 rows1 e w' Hc1 Hview1 Hrun) as [Hin | ->];
    [ | by right ].
  - subst w1. unfold proceeded in Hin. simpl in Hin. rewrite Hf in Hin.
    simpl in Hin. by apply elem_of_nil in Hin.
  - left. subst w1. unfold proceeded in Hin. simpl in Hin. rewrite Hf in Hin.
    simpl in Hin. by apply list_elem_of_further.
Qed.

(** X13. The seed rows fit the declared table. On a connection that sees
    the users table as declared, the seed step never fails on the data: no
    NOT NULL, CHECK, primary key or uniqueness violation, no wrong column
    and no wrong number of bindings. When it raises, the exception is one
    the surroundings had in store for a call into the engine, or it is
    "database is locked". *)
Theorem seed_step_fails_only_from_outside cur cs w rows e w' :
  w_conns w !! cur_connection cur = Some cs →
  view cs w !! "users" = Some (Table users_columns rows) →
  _insertSampleData cur w = (Raise e, w') →
  Some e ∈ w_faults w ∨ e = database_is_locked.
Proof.
  intros Hc Hview.
  unfold _insertSampleData, cursor_executemany, st_bind, connection_state.
  rewrite Hc. change (is_dml insert_user) with true. cbv iota.
  by apply (execute_each_seeds_raise cur sampleUsers (λ _ H, H) w cs rows).
Qed.

Lemma seed_step_fails_only_from_outside_witness :
  let w := set_faults [None; None; Some disk_full] eve_connected in
  (_insertSampleData eve_cursor w).1 = Raise disk_full
  ∧ (Some disk_full ∈ w_faults w ∨ disk_full = database_is_locked).
Proof.
  intros w. split; [vm_compute; reflexivity|].
  apply (seed_step_fails_only_from_outside eve_cursor
           (ConnState "users.db" 30 TupleRows None) w {[ 6 := eve_row ]}
           disk_full (_insertSampleData eve_cursor w).2);
    vm_compute; reflexivity.
Defined.



(** X15. When the open call fails there is nothing to release. Whatever
    exception the open call raises, storage-engine error or not,
    [getConnection] raises that exception: the block is not run (the outcome
    is the same for every block), the [finally] clause finds [connection]
    still [None] and closes nothing, and the open connections are those
    from before. Only a storage-engine error is logged. *)
Theorem getConnection_open_failure {A} self (body : Connection → M A) w e w1 r w' :
  sqlite3_connect (dbPath self) (connectionTimeout self) w = (Raise e, w1) →
  getConnection self body w = (r, w') →
  r = Raise e
  ∧ w_conns w' = w_conns w
  ∧ w_files w' = w_files w
  ∧ w_log w'
    = if is_sqlite3_Error e
      then w_log w ++ [(ERROR, "Database connection error: " +:+ str_exn e)]
      else w_log w.
Proof.
  intros Hopen. rewrite getConnection_unfold, Hopen. intros [= <- <-].
  apply sqlite3_connect_fault in Hopen as [(_ & _ & ->) | (_ & fs & _ & ->)];
    unfold connection_error_logged; by destruct (is_sqlite3_Error e).
Qed.

Lemma getConnection_open_failure_witness :
  let w := set_faults [Some keyboard_interrupt] busy_world in
  (getConnection default_self failing_block w).1 = Raise keyboard_interrupt
  ∧ w_conns (getConnection default_self failing_block w).2 = w_conns busy_world
  ∧ w_log (getConnection default_self failing_block w).2 = [].
Proof.
  intros w.
  destruct (getConnection_open_failure default_self failing_block w
              keyboard_interrupt (set_faults [] busy_world)
              (getConnection default_self failing_block w).1
              (getConnection default_self failing_block w).2)
    as (Hr & Hconns & _ & Hlog); [vm_compute; reflexivity ..|].
  split; [exact Hr|]. split; [exact Hconns | exact Hlog].
Defined.

End further.

(* ===================================================================== *)
(** ** Calls in a row *)
(* ===================================================================== *)

Section convergence.
Import Sqlite.






End convergence.
